(** * A shallow embedding of the Slack messaging bot

    Source files: [src/utils/slack.js] (the messaging core) and
    [src/server.js] (the Express routes in front of it).

    The development has three layers.

    - [JS]: the fragment of the JavaScript built-ins the code relies on:
      [String.prototype.split], [Number] and [parseFloat] on strings, and the
      [Date] constructor with its calendar arithmetic (ECMA-262, section
      "Date Objects").
    - [Slack]: [src/utils/slack.js], written in a small state-and-exception
      monad over a world made of the process-wide [messageCache], the wall
      clock read by [Date.now()] and the trace of network requests and
      back-off sleeps.  The remote platform is an arbitrary function from the
      trace so far and the request to a reply.
    - [Server]: the five route handlers of [src/server.js].

    Theorems follow the definitions. *)

From Stdlib Require Import Ascii String ZArith QArith Qabs Lia Lqa.
From stdpp Require Import base strings list gmap pretty.

Local Open Scope Z_scope.

(* ===================================================================== *)
(** ** JavaScript built-ins                                               *)
(* ===================================================================== *)

Module JS.

(** A JavaScript number as the date code sees it: an exact integer or
    [NaN].  Every number that [parseDateTime] builds from digit strings is a
    non-negative integer, so binary64 rounding plays no role below the
    [TimeClip] range (8.64e15 < 2^53), and above it the result is [NaN] in
    both readings. *)
Inductive jsnum : Set :=
| Num (z : Z)
| NaN.

Definition isNaN (n : jsnum) : bool :=
  match n with NaN => true | Num _ => false end.

(** [!n] for a number: [0] and [NaN] are falsy. *)
Definition falsy (n : jsnum) : bool :=
  match n with NaN => true | Num z => z =? 0 end.

(** *** Strings *)

Definition is_digit (c : ascii) : bool :=
  let n := nat_of_ascii c in ((48 <=? n) && (n <=? 57))%nat.

Definition digit_val (c : ascii) : Z := Z.of_nat (nat_of_ascii c) - 48.

Fixpoint all_digits (s : string) : bool :=
  match s with
  | EmptyString => true
  | String c s' => is_digit c && all_digits s'
  end.

Fixpoint digits_val (acc : Z) (s : string) : Z :=
  match s with
  | EmptyString => acc
  | String c s' => digits_val (10 * acc + digit_val c) s'
  end.

(** Characters that can occur in some [StringNumericLiteral]: white space,
    digits, sign, point, exponent mark, the letters of [Infinity], and the
    prefixes and digits of the [0x], [0o] and [0b] forms.  Bytes above 127
    may belong to a Unicode white-space character. *)
Definition numeric_char (c : ascii) : bool :=
  let n := nat_of_ascii c in
  is_digit c
  || (127 <? n)%nat
  || ((9 <=? n) && (n <=? 13))%nat
  || bool_decide (c ∈ [" "; "+"; "-"; "."; "e"; "E"; "I"; "n"; "f"; "i"; "t"; "y";
                        "x"; "X"; "o"; "O"; "a"; "b"; "c"; "d"; "A"; "B"; "C"; "D";
                        "F"]%char).

Fixpoint all_numeric_chars (s : string) : bool :=
  match s with
  | EmptyString => true
  | String c s' => numeric_char c && all_numeric_chars s'
  end.

(** [Number(s)] for a string [s] (ECMA-262 [StringToNumber]), on the fragment
    the embedding covers: the empty string is [0], a string of decimal digits
    is its value, and a string holding a character that no numeric literal
    can contain is [NaN].  Every other string (signs, fractions, exponents,
    [Infinity], non-decimal literals, surrounding white space) is outside the
    fragment: [None]. *)
Definition Number_ (s : string) : option jsnum :=
  match s with
  | EmptyString => Some (Num 0)
  | _ =>
      if all_digits s then Some (Num (digits_val 0 s))
      else if all_numeric_chars s then None
      else Some NaN
  end.

(** [s.split(sep)] for a one-character separator. *)
Fixpoint split (sep : ascii) (s : string) : list string :=
  match s with
  | EmptyString => [EmptyString]
  | String c s' =>
      if bool_decide (c = sep) then EmptyString :: split sep s'
      else match split sep s' with
           | x :: xs => String c x :: xs
           | [] => [String c EmptyString]
           end
  end.

(** *** Binary64 numbers

    A finite binary64 number is held as the rational it denotes.  The sign
    of zero, infinities and [NaN] are not represented: where the code would
    produce an infinity the operation below answers [None], outside the
    fragment. *)

(** [n / d] rounded to the nearest integer, a tie going to the even one. *)
Definition round_half_even (n d : Z) : Z :=
  let q := n / d in
  let r := n mod d in
  if 2 * r <? d then q
  else if d <? 2 * r then q + 1
  else if Z.even q then q else q + 1.

(** [2 ^ k <= n / d], for [k] of either sign. *)
Definition at_least_pow2 (n d k : Z) : bool :=
  if 0 <=? k then d * 2 ^ k <=? n else d <=? n * 2 ^ (- k).

(** The exponent [E] with [2 ^ E <= n / d < 2 ^ (E + 1)], for positive [n]
    and [d]: the difference of the bit lengths, or one less. *)
Definition binade (n d : Z) : Z :=
  let k := Z.log2 n - Z.log2 d in
  if at_least_pow2 n d k then k else k - 1.

(** The binary64 number nearest to [n / d] for positive [n] and [d], ties
    to even: a multiple of [2 ^ e] where [e] leaves 53 significant bits, and
    is not below the exponent -1074 of the subnormal numbers. *)
Definition round64_pos (n d : Z) : Q :=
  let e := Z.max (binade n d - 52) (-1074) in
  if 0 <=? e then inject_Z (round_half_even n (d * 2 ^ e) * 2 ^ e)
  else Qmake (round_half_even (n * 2 ^ (- e)) d) (Z.to_pos (2 ^ (- e))).

(** From this magnitude on, rounding to nearest gives an infinity: the
    largest finite number plus half the gap above it. *)
Definition overflow_threshold : Q := inject_Z (2 ^ 1024 - 2 ^ 970).

(** Rounding to binary64 (round to nearest, ties to even). *)
Definition round64 (x : Q) : option Q :=
  if Qle_bool overflow_threshold (Qabs x) then None
  else
    Some match Qnum x with
         | 0 => 0%Q
         | Zpos n => round64_pos (Zpos n) (Zpos (Qden x))
         | Zneg n => Qopp (round64_pos (Zpos n) (Zpos (Qden x)))
         end.

(** [x - y] on binary64 numbers: the exact difference, rounded. *)
Definition float_sub (x y : Q) : option Q := round64 (x - y).

(** The exact value of a fixed-point string: decimal digits, optionally
    followed by a point and more digits.  Any other string is outside the
    fragment: [None]. *)
Definition decimal_value (s : string) : option Q :=
  match split "." s with
  | [ip] =>
      if all_digits ip && negb (bool_decide (ip = EmptyString))
      then Some (inject_Z (digits_val 0 ip))
      else None
  | [ip; fp] =>
      if all_digits ip && negb (bool_decide (ip = EmptyString)) && all_digits fp
      then Some (Qmake (digits_val 0 (ip +:+ fp))
                       (Z.to_pos (10 ^ Z.of_nat (String.length fp))))
      else None
  | _ => None
  end.

(** [parseFloat(s)] on the fixed-point strings the platform uses for [ts]:
    the binary64 number nearest to the value of the literal. *)
Definition parseFloat (s : string) : option Q :=
  match decimal_value s with
  | Some v => round64 v
  | None => None
  end.

(** [x < y] on numbers. *)
Definition Qltb (x y : Q) : bool := negb (Qle_bool y x).

(** [Array.prototype.reduce] without an initial value on a non-empty array
    [first :: rest], for a callback that may leave the fragment. *)
Definition reduce {A} (f : A -> A -> option A) (first : A) (rest : list A) : option A :=
  foldl (fun acc curr => match acc with Some prev => f prev curr | None => None end)
        (Some first) rest.

(** *** Day number and time within day (ECMA-262 21.4.1.3 and following) *)

Definition msPerSecond : Z := 1000.
Definition msPerMinute : Z := 60000.
Definition msPerHour : Z := 3600000.
Definition msPerDay : Z := 86400000.

Definition Day (t : Z) : Z := t / msPerDay.

Definition DaysInYear (y : Z) : Z :=
  if negb (y mod 4 =? 0) then 365
  else if negb (y mod 100 =? 0) then 366
  else if negb (y mod 400 =? 0) then 365
  else 366.

Definition DayFromYear (y : Z) : Z :=
  365 * (y - 1970) + (y - 1969) / 4 - (y - 1901) / 100 + (y - 1601) / 400.

(** The year holding day number [d]: the largest [y] with
    [DayFromYear y <= d].  The mean Gregorian year has 146097/400 days, which
    puts the answer within one of the estimate [c]. *)
Definition YearFromDay (d : Z) : Z :=
  let c := 1970 + (400 * d) / 146097 in
  if DayFromYear c <=? d
  then (if DayFromYear (c + 1) <=? d then c + 1 else c)
  else c - 1.

Definition YearFromTime (t : Z) : Z := YearFromDay (Day t).

Definition InLeapYear (t : Z) : Z :=
  if DaysInYear (YearFromTime t) =? 366 then 1 else 0.

Definition DayWithinYear (t : Z) : Z := Day t - DayFromYear (YearFromTime t).

(** Month number, 0 for January to 11 for December. *)
Definition MonthFromTime (t : Z) : Z :=
  let d := DayWithinYear t in
  let l := InLeapYear t in
  if d <? 31 then 0
  else if d <? 59 + l then 1
  else if d <? 90 + l then 2
  else if d <? 120 + l then 3
  else if d <? 151 + l then 4
  else if d <? 181 + l then 5
  else if d <? 212 + l then 6
  else if d <? 243 + l then 7
  else if d <? 273 + l then 8
  else if d <? 304 + l then 9
  else if d <? 334 + l then 10
  else 11.

(** Days of the year before month [m] (0-based) in a year with leap flag
    [l]: the lower bounds of the table above. *)
Definition DaysBeforeMonth (m l : Z) : Z :=
  match m with
  | 0 => 0
  | 1 => 31
  | 2 => 59 + l
  | 3 => 90 + l
  | 4 => 120 + l
  | 5 => 151 + l
  | 6 => 181 + l
  | 7 => 212 + l
  | 8 => 243 + l
  | 9 => 273 + l
  | 10 => 304 + l
  | _ => 334 + l
  end.

(** Day of the month, 1 to 31. *)
Definition DateFromTime (t : Z) : Z :=
  DayWithinYear t - DaysBeforeMonth (MonthFromTime t) (InLeapYear t) + 1.

Definition HourFromTime (t : Z) : Z := (t / msPerHour) mod 24.
Definition MinFromTime (t : Z) : Z := (t / msPerMinute) mod 60.
Definition SecFromTime (t : Z) : Z := (t / msPerSecond) mod 60.

(** *** Building a time value (ECMA-262 21.4.1.27 and following) *)

Definition MakeTime (hour min sec ms : jsnum) : jsnum :=
  match hour, min, sec, ms with
  | Num h, Num m, Num s, Num milli =>
      Num (h * msPerHour + m * msPerMinute + s * msPerSecond + milli)
  | _, _, _, _ => NaN
  end.

(** [MakeDay]: the day number of the first of month [m mod 12] in year
    [y + floor(m / 12)], plus [dt - 1].  The standard's "return NaN when no
    such day exists" only concerns years far outside the [TimeClip] range,
    where [TimeClip] yields [NaN] as well: all arguments built by
    [parseDateTime] are non-negative, so nothing cancels an oversized year. *)
Definition MakeDay (year month date : jsnum) : jsnum :=
  match year, month, date with
  | Num y, Num m, Num dt =>
      let ym := y + m / 12 in
      let mn := m mod 12 in
      let l := if DaysInYear ym =? 366 then 1 else 0 in
      Num (DayFromYear ym + DaysBeforeMonth mn l + dt - 1)
  | _, _, _ => NaN
  end.

Definition MakeDate (day time : jsnum) : jsnum :=
  match day, time with
  | Num d, Num t => Num (d * msPerDay + t)
  | _, _ => NaN
  end.

(** Years 0 to 99 given to the [Date] constructor mean 1900 to 1999. *)
Definition MakeFullYear (year : jsnum) : jsnum :=
  match year with
  | NaN => NaN
  | Num y => if (0 <=? y) && (y <=? 99) then Num (1900 + y) else Num y
  end.

Definition TimeClip (time : jsnum) : jsnum :=
  match time with
  | NaN => NaN
  | Num t => if 8640000000000000 <? Z.abs t then NaN else Num t
  end.

Section HostZone.

(** The host's time zone: [LocalTZA t isUTC] is the offset of local time
    from UTC in milliseconds, at the UTC time value [t] when [isUTC] holds
    and at the local time value [t] otherwise. *)
Variable LocalTZA : Z -> bool -> Z.

Definition LocalTime (t : Z) : Z := t + LocalTZA t true.

Definition UTC (t : jsnum) : jsnum :=
  match t with
  | NaN => NaN
  | Num t => Num (t - LocalTZA t false)
  end.

(** [new Date(year, month, date, hours, minutes, seconds).getTime()]. *)
Definition Date_of_fields (year month date hours minutes seconds : jsnum) : jsnum :=
  let yr := MakeFullYear year in
  let finalDate := MakeDate (MakeDay yr month date)
                            (MakeTime hours minutes seconds (Num 0)) in
  TimeClip (UTC finalDate).

(** The local calendar fields of the time value [t], as the getters
    [getDate], [getMonth() + 1], [getFullYear], [getHours], [getMinutes]
    and [getSeconds] read them. *)
Definition getDate (t : Z) : Z := DateFromTime (LocalTime t).
Definition getMonth (t : Z) : Z := MonthFromTime (LocalTime t).
Definition getFullYear (t : Z) : Z := YearFromTime (LocalTime t).
Definition getHours (t : Z) : Z := HourFromTime (LocalTime t).
Definition getMinutes (t : Z) : Z := MinFromTime (LocalTime t).
Definition getSeconds (t : Z) : Z := SecFromTime (LocalTime t).

End HostZone.

(** A zone with one offset for all time, in milliseconds. *)
Definition fixedZone (offset : Z) : Z -> bool -> Z := fun _ _ => offset.

End JS.

(* ===================================================================== *)
(** ** src/utils/slack.js                                                 *)
(* ===================================================================== *)

Module Slack.
Import JS.

Definition MESSAGE_SEARCH_TIMEOUT : Z := 5000.
Definition MAX_RETRIES : nat := 2.
Definition CACHE_TTL : Z := 30000.

(** *** Values *)

(** A thrown value: [error.message] and, for a rejection by the HTTP client
    that carries a response body, [error.response.data.error]. *)
Record JsError := mkError {
  message : string;
  response_error : option string
}.

(** [new Error(msg)]. *)
Definition Error (msg : string) : JsError :=
  {| message := msg; response_error := None |}.

(** What a computation ends with: a value, a thrown error, or [Beyond] when
    the run met a string outside the fragment of [Number] or [parseFloat]
    that the embedding covers. *)
Inductive Result (A : Type) : Type :=
| Ok (a : A)
| Throw (e : JsError)
| Beyond.
Arguments Ok {A} a.
Arguments Throw {A} e.
Arguments Beyond {A}.

(** [a || d] for a string that may be undefined: the empty string and
    undefined are falsy. *)
Definition or_default (a : option string) (d : string) : string :=
  match a with
  | Some s => if bool_decide (s = EmptyString) then d else s
  | None => d
  end.

(** [!a] for a string that may be undefined. *)
Definition missing (a : option string) : bool :=
  match a with
  | Some s => bool_decide (s = EmptyString)
  | None => true
  end.

(** [error.response?.data?.error || error.message]. *)
Definition response_error_or_message (error : JsError) : string :=
  or_default (response_error error) (message error).

(** A message record of the remote platform: the fixed-point timestamp
    string [ts] and the body [text]. *)
Record Message := mkMessage {
  ts : string;
  text : option string
}.

(** [{ ...message, text: newText }]. *)
Definition with_text (m : Message) (newText : option string) : Message :=
  {| ts := ts m; text := newText |}.

(** The body of a reply of the remote platform ([res.data]). *)
Record ResponseData := mkData {
  ok : bool;
  error : option string;
  user_id : option string;
  members : option (list string);
  messages : option (list Message)
}.

(** The calls made to the remote platform, with the parameters sent. *)
Inductive Request : Type :=
| AuthTest
| ConversationsMembers (channel : string)
| ConversationsJoin (channel : string)
| ConversationsHistory (channel : string) (oldest latest : option Z)
                       (inclusive : bool) (limit : Z)
| ChatPostMessage (channel text : string)
| ChatScheduleMessage (channel text : string) (post_at : Z)
| ChatUpdate (channel ts text : string)
| ChatDelete (channel ts : string).

Inductive Settled : Type :=
| Resolve (data : ResponseData)
| Reject (e : JsError).

(** A reply settles [latency] milliseconds after the request was issued. *)
Record Reply := mkReply {
  latency : Z;
  settled : Settled
}.

(** What an observer of the process sees: requests going out and the
    back-off sleeps of the search loop. *)
Inductive Event : Type :=
| EvRequest (r : Request)
| EvSleep (ms : Z).

(** An entry of [messageCache]: [{ message, timestamp }]. *)
Record CacheEntry := mkEntry {
  entry_message : Message;
  entry_timestamp : Z
}.

(** The world the module runs in: the process-wide [messageCache] (a
    [Map] keyed by strings), the clock read by [Date.now()] and the events
    so far, oldest first. *)
Record World := mkWorld {
  messageCache : gmap string CacheEntry;
  now : Z;
  trace : list Event
}.

(** *** The monad *)

Definition M (A : Type) : Type := World -> Result A * World.

Definition ret {A} (a : A) : M A := fun w => (Ok a, w).

Definition bind {A B} (m : M A) (f : A -> M B) : M B :=
  fun w =>
    match m w with
    | (Ok a, w') => f a w'
    | (Throw e, w') => (Throw e, w')
    | (Beyond, w') => (Beyond, w')
    end.

Definition throw {A} (e : JsError) : M A := fun w => (Throw e, w).

Definition beyond {A} : M A := fun w => (Beyond, w).

(** [try { body } catch (error) { handler }]. *)
Definition try_catch {A} (body : M A) (handler : JsError -> M A) : M A :=
  fun w =>
    match body w with
    | (Throw e, w') => handler e w'
    | r => r
    end.

(** A pure computation that may throw, run inside [M]. *)
Definition lift {A} (r : Result A) : M A := fun w => (r, w).

Declare Scope js_scope.
Delimit Scope js_scope with js.
Notation "'let*' x ':=' m 'in' k" := (bind m (fun x => k))
  (at level 10, x name, m at level 100, k at level 200,
   format "'[v' 'let*'  x  ':='  m  'in' '/' k ']'") : js_scope.
Local Open Scope js_scope.

Definition Date_now : M Z := fun w => (Ok (now w), w).

Definition cache_get (key : string) : M (option CacheEntry) :=
  fun w => (Ok (messageCache w !! key), w).

Definition cache_set (key : string) (e : CacheEntry) : M unit :=
  fun w => (Ok tt, {| messageCache := <[key := e]> (messageCache w);
                      now := now w; trace := trace w |}).

Definition cache_delete (key : string) : M unit :=
  fun w => (Ok tt, {| messageCache := delete key (messageCache w);
                      now := now w; trace := trace w |}).

(** [await sleep(ms)]. *)
Definition sleep (ms : Z) : M unit :=
  fun w => (Ok tt, {| messageCache := messageCache w;
                      now := now w + ms;
                      trace := trace w ++ [EvSleep ms] |}).

(** [`${channel}:${timestamp}`] for a number and [`${channel}:${msg.ts}`]
    for a string. *)
Definition cacheKey_num (channel : string) (timestamp : Z) : string :=
  channel +:+ ":" +:+ pretty timestamp.

Definition cacheKey_ts (channel : string) (ts : string) : string :=
  channel +:+ ":" +:+ ts.

(** *** parseDateTime (lines 19-50) *)

(** [undefined] read as a number, as the [Date] constructor does. *)
Definition to_num (v : option jsnum) : jsnum := default NaN v.

(** [!v] for an array element that may be undefined. *)
Definition falsy_elem (v : option jsnum) : bool :=
  match v with
  | Some n => falsy n
  | None => true
  end.

Definition minus_one (n : jsnum) : jsnum :=
  match n with
  | Num z => Num (z - 1)
  | NaN => NaN
  end.

Section Host.

(** The host's time zone and the remote platform: the reply to a request
    may depend on everything the process has done so far. *)
Variable LocalTZA : Z -> bool -> Z.
Variable remote : list Event -> Request -> Reply.

(** The [try] block of [parseDateTime]. *)
Definition parseDateTime_try (dateStr timeStr : string) : Result Z :=
  if bool_decide (dateStr = EmptyString) || bool_decide (timeStr = EmptyString)
  then Throw (Error "Date and time are required")
  else
    match mapM Number_ (split "/" dateStr) with
    | None => Beyond
    | Some dateParts =>
        let day := dateParts !! 0%nat in
        let month := dateParts !! 1%nat in
        let year := dateParts !! 2%nat in
        if falsy_elem day || falsy_elem month || falsy_elem year
        then Throw (Error "Invalid date format. Use dd/mm/yyyy")
        else
          match mapM Number_ (split ":" timeStr) with
          | None => Beyond
          | Some timeParts =>
              if (length timeParts <? 2)%nat || existsb isNaN timeParts
              then Throw (Error "Invalid time format. Use hh:mm or hh:mm:ss")
              else
                let hours := to_num (timeParts !! 0%nat) in
                let minutes := to_num (timeParts !! 1%nat) in
                let seconds :=
                  if falsy_elem (timeParts !! 2%nat) then Num 0
                  else to_num (timeParts !! 2%nat) in
                let date := Date_of_fields LocalTZA (to_num year)
                              (minus_one (to_num month)) (to_num day)
                              hours minutes seconds in
                match date with
                | NaN => Throw (Error "Invalid date or time values")
                | Num t => Ok (t / 1000)
                end
          end
    end.

Definition parseDateTime (dateStr timeStr : string) : Result Z :=
  match parseDateTime_try dateStr timeStr with
  | Throw error =>
      Throw (Error ("Invalid date/time format: " +:+ message error))
  | r => r
  end.

(** *** Network *)

Definition after_request (w : World) (r : Request) (elapsed : Z) : World :=
  {| messageCache := messageCache w;
     now := now w + elapsed;
     trace := trace w ++ [EvRequest r] |}.

(** [await axios.get(...)] or [await axios.post(...)]: the request goes
    out, the clock advances by the latency of the reply, and the reply
    resolves to its body or rejects. *)
Definition axios (r : Request) : M ResponseData :=
  fun w =>
    let reply := remote (trace w) r in
    let w' := after_request w r (latency reply) in
    match settled reply with
    | Resolve data => (Ok data, w')
    | Reject e => (Throw e, w')
    end.

(** [await Promise.race([searchPromise, timeoutPromise])]: the reply wins
    when it settles before the timer, which was armed first; otherwise the
    race rejects after [timeout] milliseconds and the request is left
    behind. *)
Definition race (r : Request) (timeout : Z) : M ResponseData :=
  fun w =>
    let reply := remote (trace w) r in
    if latency reply <? timeout then axios r w
    else (Throw (Error "Message search timed out"), after_request w r timeout).

(** *** Membership (lines 52-107) *)

(** [members.includes(botId)]. *)
Definition includes (l : list string) (botId : option string) : bool :=
  match botId with
  | Some u => bool_decide (u ∈ l)
  | None => false
  end.

Definition isBotInChannel (channel : string) : M bool :=
  try_catch
    (let* botRes := axios AuthTest in
     let botId := user_id botRes in
     let* res := axios (ConversationsMembers channel) in
     match members res with
     | Some l => ret (includes l botId)
     | None => throw (Error "Cannot read properties of undefined (reading 'includes')")
     end)
    (fun _ => ret false).

Definition joinChannel (channel : string) : M bool :=
  try_catch
    (let* res := axios (ConversationsJoin channel) in
     if negb (ok res)
     then throw (Error (or_default (error res) "Failed to join channel"))
     else ret true)
    (fun error =>
       throw (Error ("Failed to join channel: " +:+ response_error_or_message error))).

(** [!channel || !['C', 'G', 'D'].includes(channel[0])]. *)
Definition invalid_channel (channel : string) : bool :=
  match channel with
  | EmptyString => true
  | String c _ => negb (bool_decide (c ∈ ["C"; "G"; "D"]%char))
  end.

Definition ensureBotInChannel (channel : string) : M bool :=
  try_catch
    (if invalid_channel channel
     then throw (Error "Invalid channel ID format. Must start with C (public), G (private), or D (DM)")
     else
       let* isInChannel := isBotInChannel channel in
       let* _ := (if negb isInChannel then joinChannel channel else ret true) in
       ret true)
    (fun error => throw error).

(** *** findMessageByTimestamp (lines 109-176) *)

(** The callback of the [reduce] at lines 152-156, in binary64 arithmetic:
    each [parseFloat] rounds the literal and each subtraction rounds the
    difference.  [timestamp] is the whole number of seconds [parseDateTime]
    returned, below [2 ^ 53] in magnitude and so a binary64 number itself. *)
Definition closer (timestamp : Z) (prev curr : Message) : option Message :=
  match parseFloat (ts prev), parseFloat (ts curr) with
  | Some p, Some c =>
      match float_sub p (inject_Z timestamp), float_sub c (inject_Z timestamp) with
      | Some dp, Some dc =>
          let prevDiff := Qabs dp in
          let currDiff := Qabs dc in
          Some (if Qltb currDiff prevDiff then curr else prev)
      | _, _ => None
      end
  | _, _ => None
  end.

(** The cache check at lines 113-120: a fresh entry is returned, a stale
    one is deleted. *)
Definition cache_check (key : string) : M (option Message) :=
  let* cached := cache_get key in
  match cached with
  | Some cached =>
      let* t := Date_now in
      if t - entry_timestamp cached <? CACHE_TTL
      then ret (Some (entry_message cached))
      else (let* _ := cache_delete key in ret None)
  | None => ret None
  end.

(** The [try] block of the search loop, lines 126-164. *)
Definition searchAttempt (channel : string) (timestamp : Z) : M Message :=
  let* res := race (ConversationsHistory channel (Some (timestamp - 2))
                      (Some (timestamp + 2)) true 5)
                   MESSAGE_SEARCH_TIMEOUT in
  match (if ok res then messages res else None) with
  | Some (first :: rest) =>
      match reduce (closer timestamp) first rest with
      | Some closestMessage =>
          let* t := Date_now in
          let* _ := cache_set (cacheKey_num channel timestamp)
                              (mkEntry closestMessage t) in
          ret closestMessage
      | None => beyond
      end
  | _ => throw (Error "Message not found at the specified time")
  end.

(** The [while (retries <= MAX_RETRIES)] loop, lines 125-175.  The loop
    variable is re-indexed: [k] counts the iterations the loop condition
    still admits, so [retries = MAX_RETRIES + 1 - k] on entry, and the
    statement after the loop is the case [k = 0]. *)
Fixpoint searchLoop (channel : string) (timestamp : Z) (k : nat) : M Message :=
  match k with
  | O => throw (Error "Max retries reached while searching for message")
  | S k' =>
      try_catch (searchAttempt channel timestamp)
        (fun error =>
           let retries := (S MAX_RETRIES - k')%nat in
           if (MAX_RETRIES <? retries)%nat
           then throw (Error ("Failed to find message: " +:+ message error))
           else (let* _ := sleep (500 * Z.of_nat retries) in
                 searchLoop channel timestamp k'))
  end.

Definition findMessageByTimestamp (channel : string) (timestamp : Z) : M Message :=
  let* hit := cache_check (cacheKey_num channel timestamp) in
  match hit with
  | Some m => ret m
  | None => searchLoop channel timestamp (S MAX_RETRIES)
  end.

(** *** The five operations (lines 178-350) *)

(** [{ ok: true, response: { ...res.data, human_readable_...: ... } }]. *)
Record OpResult := mkResult {
  result_ok : bool;
  response : ResponseData;
  human_readable : option string
}.

(** The [forEach] at lines 198-204. *)
Fixpoint cache_all (channel : string) (msgs : list Message) : M unit :=
  match msgs with
  | [] => ret tt
  | msg :: rest =>
      let* t := Date_now in
      let* _ := cache_set (cacheKey_ts channel (ts msg)) (mkEntry msg t) in
      cache_all channel rest
  end.

Definition getMessages (channel : string) : M OpResult :=
  try_catch
    (let* _ := ensureBotInChannel channel in
     let* res := axios (ConversationsHistory channel None None true 10) in
     if negb (ok res)
     then throw (Error (or_default (error res) "Failed to get messages"))
     else
       let* _ := (match messages res with
                  | Some msgs => cache_all channel msgs
                  | None => ret tt
                  end) in
       ret (mkResult true res None))
    (fun error =>
       throw (Error ("Retrieve messages failed: " +:+ response_error_or_message error))).

Definition sendMessage (channel : string) (text : option string) : M OpResult :=
  try_catch
    (let* _ := ensureBotInChannel channel in
     let* res := axios (ChatPostMessage channel
                          (or_default text "Hello from InternshipBot!")) in
     if negb (ok res)
     then throw (Error (or_default (error res) "Failed to send message"))
     else ret (mkResult true res None))
    (fun error =>
       throw (Error ("Send message failed: " +:+ response_error_or_message error))).

Definition scheduleMessage (channel : string) (text : option string)
    (date time : string) : M OpResult :=
  try_catch
    (let* _ := ensureBotInChannel channel in
     let* postAt := lift (parseDateTime date time) in
     let* res := axios (ChatScheduleMessage channel
                          (or_default text "Scheduled message from InternshipBot!")
                          postAt) in
     if negb (ok res)
     then throw (Error (or_default (error res) "Failed to schedule message"))
     else ret (mkResult true res
                 (Some ("Scheduled for " +:+ date +:+ " at " +:+ time))))
    (fun error => throw (Error ("Schedule message failed: " +:+ message error))).

Definition editMessage (channel date time : string) (newText : option string)
    : M OpResult :=
  try_catch
    (let* _ := ensureBotInChannel channel in
     let* timestamp := lift (parseDateTime date time) in
     let* message := findMessageByTimestamp channel timestamp in
     let* res := axios (ChatUpdate channel (ts message)
                          (or_default newText "Updated message from InternshipBot!")) in
     if negb (ok res)
     then throw (Error (or_default (error res) "Failed to edit message"))
     else
       let* t := Date_now in
       let* _ := cache_set (cacheKey_ts channel (ts message))
                           (mkEntry (with_text message newText) t) in
       ret (mkResult true res
              (Some ("Edited message from " +:+ date +:+ " at " +:+ time))))
    (fun error => throw (Error ("Edit message failed: " +:+ message error))).

Definition deleteMessage (channel date time : string) : M OpResult :=
  try_catch
    (let* _ := ensureBotInChannel channel in
     let* timestamp := lift (parseDateTime date time) in
     let* message := findMessageByTimestamp channel timestamp in
     let* res := axios (ChatDelete channel (ts message)) in
     if negb (ok res)
     then throw (Error (or_default (error res) "Failed to delete message"))
     else
       let* _ := cache_delete (cacheKey_ts channel (ts message)) in
       ret (mkResult true res
              (Some ("Deleted message from " +:+ date +:+ " at " +:+ time))))
    (fun error => throw (Error ("Delete message failed: " +:+ message error))).

End Host.

End Slack.

(* ===================================================================== *)
(** ** src/server.js                                                      *)
(* ===================================================================== *)

Module Server.
Import JS Slack.

(** The fields the routes read from [req.body] or [req.query]; each may be
    absent. *)
Record Body := mkBody {
  body_text : option string;
  body_channel : option string;
  body_date : option string;
  body_time : option string;
  body_newText : option string
}.

Inductive Json : Type :=
| JsonResult (r : OpResult)
| JsonError (error : string).

(** [res.status(code).json(body)]; [res.json(body)] answers with 200. *)
Record HttpResponse := mkResponse {
  status : Z;
  json : Json
}.

Section Host.

Variable LocalTZA : Z -> bool -> Z.
Variable remote : list Event -> Request -> Reply.

(** [try { ... res.json(result) } catch (error) { res.status(500)... }]. *)
Definition respond (op : M OpResult) : M HttpResponse :=
  try_catch
    (bind op (fun result => ret (mkResponse 200 (JsonResult result))))
    (fun error => ret (mkResponse 500 (JsonError (message error)))).

Definition bad_request (msg : string) : M HttpResponse :=
  ret (mkResponse 400 (JsonError msg)).

(** [value] where the route has checked [!value] before. *)
Definition present (v : option string) : string := default EmptyString v.

Definition channel_or_default (b : Body) : string :=
  or_default (body_channel b) "#test".

(** [const { first, ... } = req.body] where the body parser has left
    [req.body] undefined: the [TypeError] the destructuring throws.  The
    statement stands before the [try] of the route, so nothing catches it:
    the handler itself throws and no answer is sent. *)
Definition undefined_body (first : string) : JsError :=
  Error ("Cannot destructure property '" +:+ first
         +:+ "' of 'req.body' as it is undefined.").

(** The routes that read [req.body] take it as it may be, an object or
    undefined; [/messages] reads [req.query], which is always an object. *)
Definition post_send (body : option Body) : M HttpResponse :=
  match body with
  | None => throw (undefined_body "text")
  | Some b =>
      if missing (body_text b) then bad_request "Text is required"
      else respond (sendMessage remote (channel_or_default b) (body_text b))
  end.

Definition post_schedule (body : option Body) : M HttpResponse :=
  match body with
  | None => throw (undefined_body "text")
  | Some b =>
      if missing (body_text b) || missing (body_date b) || missing (body_time b)
      then bad_request "Text, date and time are required"
      else respond (scheduleMessage LocalTZA remote (channel_or_default b)
                      (body_text b) (present (body_date b)) (present (body_time b)))
  end.

Definition get_messages (query : Body) : M HttpResponse :=
  respond (getMessages remote (channel_or_default query)).

Definition post_edit (body : option Body) : M HttpResponse :=
  match body with
  | None => throw (undefined_body "date")
  | Some b =>
      if missing (body_date b) || missing (body_time b) || missing (body_newText b)
      then bad_request "Date, time and new text are required"
      else respond (editMessage LocalTZA remote (channel_or_default b)
                      (present (body_date b)) (present (body_time b))
                      (body_newText b))
  end.

Definition delete_delete (body : option Body) : M HttpResponse :=
  match body with
  | None => throw (undefined_body "date")
  | Some b =>
      if missing (body_date b) || missing (body_time b)
      then bad_request "Date and time are required"
      else respond (deleteMessage LocalTZA remote (channel_or_default b)
                      (present (body_date b)) (present (body_time b)))
  end.

End Host.

End Server.

(* ===================================================================== *)
(** ** Vocabulary of the statements                                       *)
(* ===================================================================== *)

Import JS Slack Server.

(** 1 in a leap year, 0 otherwise. *)
Definition leap_flag (y : Z) : Z := if DaysInYear y =? 366 then 1 else 0.

(** Length of month [m] (1 for January) of year [y]. *)
Definition DaysInMonth (y m : Z) : Z :=
  match m with
  | 2 => 28 + leap_flag y
  | 4 | 6 | 9 | 11 => 30
  | _ => 31
  end.

(** The local time value, in milliseconds, of a calendar date and a time of
    day. *)
Definition local_value (y m d h mi s : Z) : Z :=
  (DayFromYear y + DaysBeforeMonth (m - 1) (leap_flag y) + d - 1) * msPerDay
  + (h * msPerHour + mi * msPerMinute + s * msPerSecond + 0).

(** The calendar fields read back from an epoch-seconds value:
    [new Date(e * 1000)] and the six local getters. *)
Definition reformat (LocalTZA : Z -> bool -> Z) (e : Z) : Z * Z * Z * Z * Z * Z :=
  let t := 1000 * e in
  (getDate LocalTZA t, getMonth LocalTZA t + 1, getFullYear LocalTZA t,
   getHours LocalTZA t, getMinutes LocalTZA t, getSeconds LocalTZA t).

(** The message of the error thrown at line 94. *)
Definition invalid_channel_message : string :=
  "Invalid channel ID format. Must start with C (public), G (private), or D (DM)".

(** A channel id as the data model wants it: not empty, first character
    [C], [G] or [D]. *)
Definition bad_shape (channel : string) : Prop :=
  channel = EmptyString
  \/ exists c rest, channel = String c rest
                    /\ c <> "C"%char /\ c <> "G"%char /\ c <> "D"%char.

(** A remote platform for the worked examples: the bot [U1] is a member of
    every channel, a history query returns [history], every call takes 100
    ms and answers [ok: true]. *)
Definition member_remote (history : list Message) : list Event -> Request -> Reply :=
  fun _ r =>
    mkReply 100
      (Resolve
         match r with
         | AuthTest => mkData true None (Some "U1") None None
         | ConversationsMembers _ => mkData true None None (Some ["U1"]) None
         | ConversationsHistory _ _ _ _ _ => mkData true None None None (Some history)
         | _ => mkData true None None None None
         end).

(** The world at process start. *)
Definition world0 : World := mkWorld ∅ 0 [].

(** The history query of [findMessageByTimestamp]: the window of two
    seconds either side of the target. *)
Definition historyQuery (channel : string) (timestamp : Z) : Request :=
  ConversationsHistory channel (Some (timestamp - 2)) (Some (timestamp + 2)) true 5.

(** A reply body without candidates: [ok] is false, or [messages] is
    missing or empty. *)
Definition no_candidates (data : ResponseData) : bool :=
  negb (ok data)
  || match messages data with
     | Some (_ :: _) => false
     | _ => true
     end.

(** An attempt fails when the reply comes too late, is a rejection, or has
    no candidates. *)
Definition attempt_fails (reply : Reply) : bool :=
  (MESSAGE_SEARCH_TIMEOUT <=? latency reply)
  || match settled reply with
     | Reject _ => true
     | Resolve data => no_candidates data
     end.

(** The error a failed attempt leaves in the [catch] block. *)
Definition attempt_error (reply : Reply) : JsError :=
  if MESSAGE_SEARCH_TIMEOUT <=? latency reply
  then Error "Message search timed out"
  else match settled reply with
       | Reject e => e
       | Resolve _ => Error "Message not found at the specified time"
       end.

(** The time an attempt takes: the latency of the reply, capped by the
    timeout. *)
Definition attempt_elapsed (reply : Reply) : Z :=
  if latency reply <? MESSAGE_SEARCH_TIMEOUT then latency reply
  else MESSAGE_SEARCH_TIMEOUT.

(** [Math.abs(parseFloat(m.ts) - timestamp)] as the code computes it, in
    binary64 arithmetic. *)
Definition tsDiff (timestamp : Z) (m : Message) : Q :=
  match parseFloat (ts m) with
  | Some p =>
      match float_sub p (inject_Z timestamp) with
      | Some d => Qabs d
      | None => 0%Q
      end
  | None => 0%Q
  end.

(** The timestamp of [m] is a fixed-point string, and neither its binary64
    value nor its difference from [timestamp] is an infinity. *)
Definition comparable (timestamp : Z) (m : Message) : Prop :=
  exists p d,
    parseFloat (ts m) = Some p /\ float_sub p (inject_Z timestamp) = Some d.


(** The distance between the exact decimal value of [m.ts] and
    [timestamp]. *)
Definition exactDiff (timestamp : Z) (m : Message) : Q :=
  match decimal_value (ts m) with
  | Some v => Qabs (v - inject_Z timestamp)
  | None => 0%Q
  end.

(** The timestamp of [m] is a fixed-point string with a value below
    [2 ^ 33]. *)
Definition epoch_sized (m : Message) : Prop :=
  exists v, decimal_value (ts m) = Some v /\ (0 <= v < inject_Z (2 ^ 33))%Q.

(** [m] is the element at index [i] of [l], no element of [l] has a smaller
    computed difference from [timestamp], and every element before it has a
    strictly greater one. *)
Definition first_closest (timestamp : Z) (l : list Message) (i : nat) (m : Message)
    : Prop :=
  l !! i = Some m
  /\ forall j m', l !! j = Some m' ->
                  (tsDiff timestamp m <= tsDiff timestamp m')%Q
                  /\ ((j < i)%nat -> (tsDiff timestamp m < tsDiff timestamp m')%Q).

(** A remote platform for the worked examples where the bot [U1] is not in
    the member list of any channel; every call takes 100 ms and answers
    [ok: true]. *)
Definition stranger_remote (history : list Message) : list Event -> Request -> Reply :=
  fun _ r =>
    mkReply 100
      (Resolve
         match r with
         | AuthTest => mkData true None (Some "U1") None None
         | ConversationsMembers _ => mkData true None None (Some ["U2"]) None
         | ConversationsHistory _ _ _ _ _ => mkData true None None None (Some history)
         | _ => mkData true None None None None
         end).

(** What the join call of [joinChannel] ends with, given the reply. *)
Definition join_result (reply : Reply) : Result bool :=
  match settled reply with
  | Resolve data =>
      if ok data then Ok true
      else Throw (Error ("Failed to join channel: "
                         +:+ or_default (error data) "Failed to join channel"))
  | Reject e =>
      Throw (Error ("Failed to join channel: " +:+ response_error_or_message e))
  end.

(** The events of a lookup that makes [n] attempts: the history query,
    with the back-off sleeps in between. *)
Definition search_events (channel : string) (timestamp : Z) (n : nat) : list Event :=
  let q := EvRequest (historyQuery channel timestamp) in
  match n with
  | 0%nat => []
  | 1%nat => [q]
  | 2%nat => [q; EvSleep 500; q]
  | _ => [q; EvSleep 500; q; EvSleep 1000; q]
  end.

(** The seconds since midnight that [parseDateTime] makes of the parts of a
    time string: hours, minutes and, when present and not [0], seconds;
    [None] when a part is [NaN] or fewer than two parts are given. *)
Definition time_seconds (timeParts : list jsnum) : option Z :=
  if (length timeParts <? 2)%nat || existsb isNaN timeParts then None
  else
    match timeParts with
    | Num h :: Num mi :: rest =>
        Some (h * 3600 + mi * 60
              + match rest with
                | Num s :: _ => s
                | _ => 0
                end)
    | _ => None
    end.

(** A computation that leaves [messageCache] as it found it, whatever it
    returns. *)
Definition keeps_cache {A} (m : M A) : Prop :=
  forall w, messageCache (snd (m w)) = messageCache w.

(** A remote platform for the worked examples whose first reply, at the
    empty trace, comes after 6 s, and which behaves as [member_remote] from
    then on. *)
Definition flaky_remote (history : list Message) : list Event -> Request -> Reply :=
  fun tr r =>
    match tr with
    | [] => mkReply 6000 (Resolve (mkData true None None None None))
    | _ => member_remote history tr r
    end.

(* ===================================================================== *)
(** ** Calendar arithmetic                                                *)
(* ===================================================================== *)

Lemma DaysInYear_cases y : DaysInYear y = 365 \/ DaysInYear y = 366.
Proof. unfold DaysInYear. repeat case_match; auto. Qed.

Lemma leap_flag_cases y : leap_flag y = 0 \/ leap_flag y = 1.
Proof. unfold leap_flag. case_match; auto. Qed.

Lemma leap_flag_DaysInYear y : DaysInYear y = 365 + leap_flag y.
Proof. unfold leap_flag. destruct (DaysInYear_cases y) as [-> | ->]; reflexivity. Qed.

Lemma DayFromYear_succ y : DayFromYear (y + 1) = DayFromYear y + DaysInYear y.
Proof.
  unfold DayFromYear, DaysInYear.
  repeat match goal with
         | |- context [negb (?a =? ?b)] => destruct (Z.eqb_spec a b); simpl
         end;
    Z.div_mod_to_equations; lia.
Qed.

(** [YearFromDay] finds the year whose days enclose [d]. *)
Lemma YearFromDay_spec y d :
  DayFromYear y <= d < DayFromYear (y + 1) -> YearFromDay d = y.
Proof.
  intros H. unfold YearFromDay.
  assert (Hc : 1970 + 400 * d / 146097 = y - 1
               \/ 1970 + 400 * d / 146097 = y
               \/ 1970 + 400 * d / 146097 = y + 1).
  { rewrite DayFromYear_succ in H. pose proof (DaysInYear_cases y).
    unfold DayFromYear in H. Z.div_mod_to_equations; lia. }
  pose proof (DayFromYear_succ (y - 1)) as Hp.
  replace (y - 1 + 1) with y in Hp by lia.
  pose proof (DaysInYear_cases (y - 1)).
  pose proof (DaysInYear_cases (y + 1)).
  pose proof (DayFromYear_succ (y + 1)) as Hn.
  destruct Hc as [-> | [-> | ->]].
  - replace (y - 1 + 1) with y by lia.
    destruct (Z.leb_spec (DayFromYear (y - 1)) d);
      destruct (Z.leb_spec (DayFromYear y) d); lia.
  - destruct (Z.leb_spec (DayFromYear y) d);
      destruct (Z.leb_spec (DayFromYear (y + 1)) d); lia.
  - destruct (Z.leb_spec (DayFromYear (y + 1)) d);
      destruct (Z.leb_spec (DayFromYear (y + 1 + 1)) d); lia.
Qed.

Ltac each_month m Hm :=
  let H := fresh in
  assert (H : m = 1 \/ m = 2 \/ m = 3 \/ m = 4 \/ m = 5 \/ m = 6 \/ m = 7
              \/ m = 8 \/ m = 9 \/ m = 10 \/ m = 11 \/ m = 12) by lia;
  clear Hm;
  destruct H as [-> | [-> | [-> | [-> | [-> | [-> | [-> | [-> | [-> | [-> | [-> | ->]]]]]]]]]]];
  simpl in *.

(** A day of month [m], year [y] reads back as year [y], month [m], day
    [d]. *)
Lemma calendar_of_day y m d t :
  1 <= m <= 12 -> 1 <= d <= DaysInMonth y m ->
  Day t = DayFromYear y + DaysBeforeMonth (m - 1) (leap_flag y) + d - 1 ->
  YearFromTime t = y /\ MonthFromTime t = m - 1 /\ DateFromTime t = d.
Proof.
  intros Hm Hd Ht.
  pose proof (leap_flag_DaysInYear y) as Hl.
  pose proof (leap_flag_cases y) as Hf.
  assert (Hy : YearFromTime t = y).
  { unfold YearFromTime. apply YearFromDay_spec.
    rewrite DayFromYear_succ, Ht, Hl. each_month m Hm; lia. }
  assert (Hw : DayWithinYear t = DaysBeforeMonth (m - 1) (leap_flag y) + d - 1).
  { unfold DayWithinYear. rewrite Hy, Ht. lia. }
  assert (Hi : InLeapYear t = leap_flag y).
  { unfold InLeapYear, leap_flag. rewrite Hy. reflexivity. }
  assert (Hmo : MonthFromTime t = m - 1).
  { unfold MonthFromTime. rewrite Hw, Hi.
    each_month m Hm;
      repeat match goal with
             | |- context [?a <? ?b] => destruct (Z.ltb_spec a b); try lia
             end. }
  split; [exact Hy | split; [exact Hmo |]].
  unfold DateFromTime. rewrite Hmo, Hw, Hi. lia.
Qed.

Lemma Day_of_parts d time : 0 <= time < msPerDay -> Day (d * msPerDay + time) = d.
Proof. intros H. unfold Day, msPerDay in *. Z.div_mod_to_equations; lia. Qed.

Lemma clock_of_parts d h mi s :
  0 <= h < 24 -> 0 <= mi < 60 -> 0 <= s < 60 ->
  let t := d * msPerDay + (h * msPerHour + mi * msPerMinute + s * msPerSecond + 0) in
  HourFromTime t = h /\ MinFromTime t = mi /\ SecFromTime t = s.
Proof.
  intros Hh Hmi Hs t. subst t.
  unfold HourFromTime, MinFromTime, SecFromTime,
    msPerDay, msPerHour, msPerMinute, msPerSecond.
  repeat split; Z.div_mod_to_equations; lia.
Qed.

Lemma DayFromYear_bounds y :
  100 <= y <= 9999 -> -700000 <= DayFromYear y <= 2940000.
Proof. intros H. unfold DayFromYear. Z.div_mod_to_equations; lia. Qed.

(** The six fields of [local_value] read back. *)
Lemma local_value_fields y m d h mi s :
  1 <= m <= 12 -> 1 <= d <= DaysInMonth y m ->
  0 <= h < 24 -> 0 <= mi < 60 -> 0 <= s < 60 ->
  let t := local_value y m d h mi s in
  DateFromTime t = d /\ MonthFromTime t + 1 = m /\ YearFromTime t = y
  /\ HourFromTime t = h /\ MinFromTime t = mi /\ SecFromTime t = s.
Proof.
  intros Hm Hd Hh Hmi Hs t.
  destruct (clock_of_parts
              (DayFromYear y + DaysBeforeMonth (m - 1) (leap_flag y) + d - 1)
              h mi s Hh Hmi Hs) as (Eh & Emi & Es).
  destruct (calendar_of_day y m d t Hm Hd) as (Ey & Em & Ed).
  { subst t. unfold local_value. apply Day_of_parts.
    unfold msPerDay, msPerHour, msPerMinute, msPerSecond. lia. }
  rewrite Em. subst t. unfold local_value.
  repeat split; try assumption. lia.
Qed.

(** The time value the [Date] constructor builds for a calendar date with a
    four-digit year from 100 on. *)
Lemma Date_of_fields_value LocalTZA y m d h mi s :
  100 <= y <= 9999 -> 1 <= m <= 12 -> 1 <= d <= DaysInMonth y m ->
  0 <= h < 24 -> 0 <= mi < 60 -> 0 <= s < 60 ->
  let t := local_value y m d h mi s in
  Z.abs (LocalTZA t false) <= msPerDay ->
  Date_of_fields LocalTZA (Num y) (Num (m - 1)) (Num d) (Num h) (Num mi) (Num s)
  = Num (t - LocalTZA t false).
Proof.
  intros Hy Hm Hd Hh Hmi Hs t Hz.
  unfold Date_of_fields, MakeFullYear.
  replace ((0 <=? y) && (y <=? 99)) with false
    by (symmetry; apply andb_false_iff; right; apply Z.leb_gt; lia).
  unfold MakeDay, MakeTime, MakeDate, UTC.
  replace ((m - 1) / 12) with 0 by (Z.div_mod_to_equations; lia).
  replace ((m - 1) mod 12) with (m - 1) by (Z.div_mod_to_equations; lia).
  replace (y + 0) with y by lia.
  fold (leap_flag y). fold (local_value y m d h mi s). fold t.
  unfold TimeClip.
  assert (Hb : Z.abs (t - LocalTZA t false) <= 8640000000000000).
  { pose proof (DayFromYear_bounds y Hy) as Hdy.
    pose proof (leap_flag_cases y) as Hf.
    assert (0 <= DaysBeforeMonth (m - 1) (leap_flag y) + d - 1 <= 366).
    { clear Hz. each_month m Hm; lia. }
    subst t. unfold local_value, msPerDay, msPerHour, msPerMinute, msPerSecond in *.
    lia. }
  destruct (Z.ltb_spec 8640000000000000 (Z.abs (t - LocalTZA t false))); [lia | reflexivity].
Qed.

(** [mapM Number_] cannot read three numbers out of the empty string. *)
Lemma split_empty_parts sep (l : list jsnum) :
  mapM Number_ (split sep EmptyString) = Some l -> l = [Num 0].
Proof. simpl. intros [= <-]. reflexivity. Qed.

(** C8 (amended).  For a date string whose three parts read as day [d],
    month [m] and year [y] of a calendar date with [100 <= y <= 9999], and a
    time string whose parts read as [h], [mi] and optionally [s] (0 when
    omitted) of a time of day, in a host zone whose offset at that local time
    is a whole number of seconds, at most a day, and equal to the offset at
    the resulting instant, [parseDateTime] returns an epoch value whose local
    calendar fields are [d], [m], [y], [h], [mi] and [s] again. *)
Theorem parseDateTime_roundtrip LocalTZA dateStr timeStr d m y h mi s :
  mapM Number_ (split "/" dateStr) = Some [Num d; Num m; Num y] ->
  (mapM Number_ (split ":" timeStr) = Some [Num h; Num mi; Num s]
   \/ (mapM Number_ (split ":" timeStr) = Some [Num h; Num mi] /\ s = 0)) ->
  100 <= y <= 9999 -> 1 <= m <= 12 -> 1 <= d <= DaysInMonth y m ->
  0 <= h < 24 -> 0 <= mi < 60 -> 0 <= s < 60 ->
  let t := local_value y m d h mi s in
  (1000 | LocalTZA t false) ->
  Z.abs (LocalTZA t false) <= msPerDay ->
  LocalTZA (t - LocalTZA t false) true = LocalTZA t false ->
  exists e,
    parseDateTime LocalTZA dateStr timeStr = Ok e
    /\ reformat LocalTZA e = (d, m, y, h, mi, s).
Proof.
  intros Hdate Htime Hy Hm Hd Hh Hmi Hs t Hdiv Habs Hsame.
  assert (Hne : dateStr <> EmptyString).
  { intros ->. apply split_empty_parts in Hdate. discriminate. }
  assert (Hnt : timeStr <> EmptyString).
  { intros ->. destruct Htime as [Ht | [Ht _]];
      apply split_empty_parts in Ht; discriminate. }
  pose proof (Date_of_fields_value LocalTZA y m d h mi s Hy Hm Hd Hh Hmi Hs Habs)
    as Hval.
  fold t in Hval.
  assert (Hmult : (1000 | t)).
  { subst t. unfold local_value, msPerDay, msPerHour, msPerMinute, msPerSecond.
    exists ((DayFromYear y + DaysBeforeMonth (m - 1) (leap_flag y) + d - 1) * 86400
            + (h * 3600 + mi * 60 + s)). lia. }
  exists ((t - LocalTZA t false) / 1000). split.
  - unfold parseDateTime, parseDateTime_try.
    rewrite !bool_decide_eq_false_2 by assumption. simpl orb.
    rewrite Hdate. cbn [lookup list_lookup falsy_elem falsy to_num default minus_one].
    replace (d =? 0) with false by (symmetry; apply Z.eqb_neq; lia).
    replace (m =? 0) with false by (symmetry; apply Z.eqb_neq; lia).
    replace (y =? 0) with false by (symmetry; apply Z.eqb_neq; lia).
    simpl orb.
    destruct Htime as [Ht | [Ht ->]]; rewrite Ht;
      cbn [length Nat.ltb Nat.leb existsb isNaN orb lookup list_lookup
             falsy_elem falsy to_num default].
    + destruct (Z.eqb_spec s 0) as [-> | Hs0]; cbn [id minus_one];
        rewrite Hval; reflexivity.
    + cbn [id minus_one]. rewrite Hval. reflexivity.
  - unfold reformat, getDate, getMonth, getFullYear, getHours, getMinutes,
      getSeconds, LocalTime.
    assert (Hback : 1000 * ((t - LocalTZA t false) / 1000) = t - LocalTZA t false).
    { destruct Hdiv as [a Ha]. destruct Hmult as [b Hb]. rewrite Ha, Hb.
      replace (b * 1000 - a * 1000) with ((b - a) * 1000) by lia.
      rewrite Z.div_mul by lia. lia. }
    rewrite Hback, Hsame.
    replace (t - LocalTZA t false + LocalTZA t false) with t by lia.
    destruct (local_value_fields y m d h mi s Hm Hd Hh Hmi Hs)
      as (E1 & E2 & E3 & E4 & E5 & E6).
    fold t in E1, E2, E3, E4, E5, E6.
    rewrite E1, E2, E3, E4, E5, E6. reflexivity.
Qed.

Lemma parseDateTime_roundtrip_witness :
  exists e,
    parseDateTime (fixedZone 19800000) "31/12/2023" "14:30" = Ok e
    /\ reformat (fixedZone 19800000) e = (31, 12, 2023, 14, 30, 0).
Proof.
  apply (parseDateTime_roundtrip (fixedZone 19800000) "31/12/2023" "14:30"
           31 12 2023 14 30 0).
  - reflexivity.
  - right. split; reflexivity.
  - lia.
  - lia.
  - vm_compute. split; discriminate.
  - lia.
  - lia.
  - lia.
  - exists 19800. reflexivity.
  - vm_compute. discriminate.
  - reflexivity.
Defined.

(** C8, as stated, fails for the years 0001 to 0099: the [Date] constructor
    reads a year below 100 as 1900 plus that year, so 01/01/0050 comes back
    as 1 January 1950. *)
Lemma parseDateTime_roundtrip_year_50 :
  parseDateTime (fixedZone 0) "01/01/0050" "00:00" = Ok (-631152000)
  /\ reformat (fixedZone 0) (-631152000) = (1, 1, 1950, 0, 0, 0)
  /\ ~ (exists e,
          parseDateTime (fixedZone 0) "01/01/0050" "00:00" = Ok e
          /\ reformat (fixedZone 0) e = (1, 1, 50, 0, 0, 0)).
Proof.
  assert (H : parseDateTime (fixedZone 0) "01/01/0050" "00:00" = Ok (-631152000))
    by (vm_compute; reflexivity).
  split; [exact H | split; [vm_compute; reflexivity |]].
  intros (e & He & Hr). rewrite H in He. injection He as <-.
  vm_compute in Hr. discriminate.
Qed.

(** A day past the end of a month is carried into the months that follow:
    the [Date] constructor never rejects it. *)
Lemma MakeDay_overflow y m k :
  1 <= m <= 12 ->
  MakeDay (Num y) (Num (m - 1)) (Num (DaysInMonth y m + k))
  = MakeDay (Num y) (Num m) (Num k).
Proof.
  intros Hm. unfold MakeDay. f_equal.
  assert (Hc : m = 12 \/ 1 <= m <= 11) by lia.
  destruct Hc as [-> | Hc].
  - change ((12 - 1) / 12) with 0. change (12 / 12) with 1.
    change ((12 - 1) mod 12) with 11. change (12 mod 12) with 0.
    replace (y + 0) with y by lia.
    fold (leap_flag y). fold (leap_flag (y + 1)).
    change (DaysInMonth y 12) with 31.
    change (DaysBeforeMonth 11 (leap_flag y)) with (334 + leap_flag y).
    change (DaysBeforeMonth 0 (leap_flag (y + 1))) with 0.
    rewrite DayFromYear_succ, leap_flag_DaysInYear. lia.
  - replace ((m - 1) / 12) with 0 by (Z.div_mod_to_equations; lia).
    replace (m / 12) with 0 by (Z.div_mod_to_equations; lia).
    replace ((m - 1) mod 12) with (m - 1) by (Z.div_mod_to_equations; lia).
    replace (m mod 12) with m by (Z.div_mod_to_equations; lia).
    fold (leap_flag (y + 0)). replace (y + 0) with y by lia.
    pose proof (leap_flag_cases y).
    assert (Hc' : m = 1 \/ m = 2 \/ m = 3 \/ m = 4 \/ m = 5 \/ m = 6 \/ m = 7
                  \/ m = 8 \/ m = 9 \/ m = 10 \/ m = 11) by lia.
    destruct Hc' as [-> | [-> | [-> | [-> | [-> | [-> | [-> | [-> | [-> | [-> | ->]]]]]]]]]];
      simpl; lia.
Qed.

(** C2: the code at the failing input.  In every host zone and for every
    time string, 31/02/2024 is read as 02/03/2024; in a UTC host the call
    with 14:30 returns the epoch value of 2 March 2024, 14:30:00, instead of
    throwing. *)
Theorem parseDateTime_31_february :
  (forall LocalTZA timeStr,
      parseDateTime LocalTZA "31/02/2024" timeStr
      = parseDateTime LocalTZA "02/03/2024" timeStr)
  /\ parseDateTime (fixedZone 0) "31/02/2024" "14:30" = Ok 1709389800
  /\ reformat (fixedZone 0) 1709389800 = (2, 3, 2024, 14, 30, 0).
Proof.
  split; [| split; vm_compute; reflexivity].
  intros LocalTZA timeStr. unfold parseDateTime, parseDateTime_try.
  reflexivity.
Qed.

(* ===================================================================== *)
(** ** Channel-id shape (lines 91-95) and the default channel             *)
(* ===================================================================== *)

Lemma invalid_channel_bad_shape channel :
  bad_shape channel -> invalid_channel channel = true.
Proof.
  intros [-> | (c & rest & -> & HC & HG & HD)]; [reflexivity |].
  unfold invalid_channel. apply negb_true_iff, bool_decide_eq_false_2.
  rewrite !elem_of_cons, elem_of_nil. intuition.
Qed.

Ltac run := unfold bind, ret, throw, try_catch, lift.

Lemma ensureBotInChannel_invalid remote channel w :
  invalid_channel channel = true ->
  ensureBotInChannel remote channel w = (Throw (Error invalid_channel_message), w).
Proof. intros H. unfold ensureBotInChannel. rewrite H. reflexivity. Qed.

(** Every operation starts with the shape check (lines 181, 217, 242, 276
    and 318). *)
Lemma operations_reject_invalid_channel
    LocalTZA remote channel (text newText : option string) (date time : string) w :
  invalid_channel channel = true ->
  getMessages remote channel w
  = (Throw (Error ("Retrieve messages failed: " +:+ invalid_channel_message)), w)
  /\ sendMessage remote channel text w
     = (Throw (Error ("Send message failed: " +:+ invalid_channel_message)), w)
  /\ scheduleMessage LocalTZA remote channel text date time w
     = (Throw (Error ("Schedule message failed: " +:+ invalid_channel_message)), w)
  /\ editMessage LocalTZA remote channel date time newText w
     = (Throw (Error ("Edit message failed: " +:+ invalid_channel_message)), w)
  /\ deleteMessage LocalTZA remote channel date time w
     = (Throw (Error ("Delete message failed: " +:+ invalid_channel_message)), w).
Proof.
  intros H.
  pose proof (ensureBotInChannel_invalid remote channel w H) as He.
  unfold getMessages, sendMessage, scheduleMessage, editMessage, deleteMessage.
  run. rewrite He. repeat split; reflexivity.
Qed.

(** A route turns a thrown error into a 500 answer. *)
Lemma respond_throw (op : M OpResult) e w w' :
  op w = (Throw e, w') ->
  respond op w = (Ok (mkResponse 500 (JsonError (message e))), w').
Proof. intros H. unfold respond. run. rewrite H. reflexivity. Qed.

(** C7.  A channel id that is empty or does not start with [C], [G] or [D]
    makes [ensureBotInChannel] throw the shape error in an unchanged world:
    no request has gone out.  Each of the five operations starts with this
    check, so each fails the same way, its own prefix before the message,
    with no request either. *)
Theorem invalid_channel_fails_without_network
    LocalTZA remote channel (text newText : option string) (date time : string) w :
  bad_shape channel ->
  ensureBotInChannel remote channel w
  = (Throw (Error invalid_channel_message), w)
  /\ getMessages remote channel w
     = (Throw (Error ("Retrieve messages failed: " +:+ invalid_channel_message)), w)
  /\ sendMessage remote channel text w
     = (Throw (Error ("Send message failed: " +:+ invalid_channel_message)), w)
  /\ scheduleMessage LocalTZA remote channel text date time w
     = (Throw (Error ("Schedule message failed: " +:+ invalid_channel_message)), w)
  /\ editMessage LocalTZA remote channel date time newText w
     = (Throw (Error ("Edit message failed: " +:+ invalid_channel_message)), w)
  /\ deleteMessage LocalTZA remote channel date time w
     = (Throw (Error ("Delete message failed: " +:+ invalid_channel_message)), w).
Proof.
  intros H. apply invalid_channel_bad_shape in H.
  split; [apply ensureBotInChannel_invalid; exact H |].
  apply operations_reject_invalid_channel; exact H.
Qed.

Lemma invalid_channel_fails_without_network_witness :
  sendMessage (fun _ _ => mkReply 0 (Resolve (mkData true None None None None)))
    "general" (Some "hi") (mkWorld ∅ 0 [])
  = (Throw (Error ("Send message failed: " +:+ invalid_channel_message)),
     mkWorld ∅ 0 []).
Proof.
  apply (invalid_channel_fails_without_network (fixedZone 0)
           (fun _ _ => mkReply 0 (Resolve (mkData true None None None None)))
           "general" (Some "hi") None "" "" (mkWorld ∅ 0 [])).
  right. exists "g"%char, "eneral". repeat split; discriminate.
Defined.

(** C9.  With the channel left out of the request, every route substitutes
    ["#test"], which fails the shape check: the route answers 400 when a
    required field is missing and 500 with the shape error otherwise, never
    200, and the world is unchanged, so no request went out.  A request
    whose body was left undefined names no channel either: the four routes
    that read the body throw at once, in an unchanged world. *)
Theorem default_channel_never_succeeds LocalTZA remote b w :
  missing (body_channel b) = true ->
  channel_or_default b = "#test"
  /\ post_send remote (Some b) w
     = (Ok (if missing (body_text b)
            then mkResponse 400 (JsonError "Text is required")
            else mkResponse 500
                   (JsonError ("Send message failed: " +:+ invalid_channel_message))), w)
  /\ post_schedule LocalTZA remote (Some b) w
     = (Ok (if missing (body_text b) || missing (body_date b) || missing (body_time b)
            then mkResponse 400 (JsonError "Text, date and time are required")
            else mkResponse 500
                   (JsonError ("Schedule message failed: " +:+ invalid_channel_message))), w)
  /\ get_messages remote b w
     = (Ok (mkResponse 500
              (JsonError ("Retrieve messages failed: " +:+ invalid_channel_message))), w)
  /\ post_edit LocalTZA remote (Some b) w
     = (Ok (if missing (body_date b) || missing (body_time b) || missing (body_newText b)
            then mkResponse 400 (JsonError "Date, time and new text are required")
            else mkResponse 500
                   (JsonError ("Edit message failed: " +:+ invalid_channel_message))), w)
  /\ delete_delete LocalTZA remote (Some b) w
     = (Ok (if missing (body_date b) || missing (body_time b)
            then mkResponse 400 (JsonError "Date and time are required")
            else mkResponse 500
                   (JsonError ("Delete message failed: " +:+ invalid_channel_message))), w)
  /\ post_send remote None w = (Throw (undefined_body "text"), w)
  /\ post_schedule LocalTZA remote None w = (Throw (undefined_body "text"), w)
  /\ post_edit LocalTZA remote None w = (Throw (undefined_body "date"), w)
  /\ delete_delete LocalTZA remote None w = (Throw (undefined_body "date"), w).
Proof.
  intros Hc.
  assert (Hd : channel_or_default b = "#test").
  { unfold channel_or_default, or_default. unfold missing in Hc.
    destruct (body_channel b); [rewrite Hc |]; reflexivity. }
  split; [exact Hd |].
  unfold post_send, post_schedule, get_messages, post_edit, delete_delete.
  rewrite Hd.
  destruct (operations_reject_invalid_channel LocalTZA remote "#test"
              (body_text b) (body_newText b)
              (present (body_date b)) (present (body_time b)) w eq_refl)
    as (Hg & Hse & Hsc & Hed & Hde).
  refine (conj _ (conj _ (conj _ (conj _ (conj _
            (conj eq_refl (conj eq_refl (conj eq_refl eq_refl)))))))).
  - destruct (missing (body_text b)); [reflexivity |].
    apply (respond_throw _ _ _ _ Hse).
  - destruct (missing (body_text b) || missing (body_date b) || missing (body_time b));
      [reflexivity |].
    apply (respond_throw _ _ _ _ Hsc).
  - apply (respond_throw _ _ _ _ Hg).
  - destruct (missing (body_date b) || missing (body_time b) || missing (body_newText b));
      [reflexivity |].
    apply (respond_throw _ _ _ _ Hed).
  - destruct (missing (body_date b) || missing (body_time b)); [reflexivity |].
    apply (respond_throw _ _ _ _ Hde).
Qed.

Lemma default_channel_never_succeeds_witness :
  post_send (fun _ _ => mkReply 0 (Resolve (mkData true None None None None)))
    (Some (mkBody (Some "hello") None None None None)) (mkWorld ∅ 0 [])
  = (Ok (mkResponse 500
           (JsonError ("Send message failed: " +:+ invalid_channel_message))),
     mkWorld ∅ 0 []).
Proof.
  apply (default_channel_never_succeeds (fixedZone 0)
           (fun _ _ => mkReply 0 (Resolve (mkData true None None None None)))
           (mkBody (Some "hello") None None None None) (mkWorld ∅ 0 [])).
  reflexivity.
Defined.

(* ===================================================================== *)
(** ** Default texts (lines 223, 250 and 286)                             *)
(* ===================================================================== *)

Lemma or_default_missing (a : option string) d :
  missing a = true -> or_default a d = d.
Proof.
  unfold missing, or_default. destruct a as [s |]; [| reflexivity].
  intros ->. reflexivity.
Qed.

(** C10.  When the text is absent or empty, [sendMessage] and
    [scheduleMessage] behave exactly as if called with their default text,
    and [editMessage] sends its default text in the update call.  Once the
    membership guard has passed (and, where they apply, the date has parsed
    and the message has been found), a reply with [ok: true] to the call
    carrying the default text makes the operation succeed. *)
Theorem missing_text_defaults LocalTZA remote channel (text : option string)
    (date time : string) w :
  missing text = true ->
  sendMessage remote channel text w
  = sendMessage remote channel (Some "Hello from InternshipBot!") w
  /\ scheduleMessage LocalTZA remote channel text date time w
     = scheduleMessage LocalTZA remote channel
         (Some "Scheduled message from InternshipBot!") date time w
  /\ (forall inChannel w1 lat data,
         ensureBotInChannel remote channel w = (Ok inChannel, w1) ->
         remote (trace w1) (ChatPostMessage channel "Hello from InternshipBot!")
         = mkReply lat (Resolve data) ->
         ok data = true ->
         sendMessage remote channel text w
         = (Ok (mkResult true data None),
            after_request w1
              (ChatPostMessage channel "Hello from InternshipBot!") lat))
  /\ (forall inChannel w1 postAt lat data,
         ensureBotInChannel remote channel w = (Ok inChannel, w1) ->
         parseDateTime LocalTZA date time = Ok postAt ->
         remote (trace w1)
           (ChatScheduleMessage channel "Scheduled message from InternshipBot!" postAt)
         = mkReply lat (Resolve data) ->
         ok data = true ->
         scheduleMessage LocalTZA remote channel text date time w
         = (Ok (mkResult true data
                  (Some ("Scheduled for " +:+ date +:+ " at " +:+ time))),
            after_request w1
              (ChatScheduleMessage channel "Scheduled message from InternshipBot!" postAt)
              lat))
  /\ (forall inChannel w1 timestamp message w2 lat data,
         ensureBotInChannel remote channel w = (Ok inChannel, w1) ->
         parseDateTime LocalTZA date time = Ok timestamp ->
         findMessageByTimestamp remote channel timestamp w1 = (Ok message, w2) ->
         remote (trace w2)
           (ChatUpdate channel (ts message) "Updated message from InternshipBot!")
         = mkReply lat (Resolve data) ->
         ok data = true ->
         exists w',
           editMessage LocalTZA remote channel date time text w
           = (Ok (mkResult true data
                    (Some ("Edited message from " +:+ date +:+ " at " +:+ time))), w')
           /\ trace w'
              = trace w2 ++ [EvRequest (ChatUpdate channel (ts message)
                                          "Updated message from InternshipBot!")]).
Proof.
  intros Hmiss.
  refine (conj _ (conj _ (conj _ (conj _ _)))).
  - unfold sendMessage. rewrite (or_default_missing _ _ Hmiss). reflexivity.
  - unfold scheduleMessage. rewrite (or_default_missing _ _ Hmiss). reflexivity.
  - intros inChannel w1 lat data He Hr Hok.
    unfold sendMessage. rewrite (or_default_missing _ _ Hmiss).
    run. rewrite He. unfold axios. rewrite Hr. cbn [settled latency].
    rewrite Hok. reflexivity.
  - intros inChannel w1 postAt lat data He Hp Hr Hok.
    unfold scheduleMessage. rewrite (or_default_missing _ _ Hmiss).
    run. rewrite He, Hp. unfold axios. rewrite Hr. cbn [settled latency].
    rewrite Hok. reflexivity.
  - intros inChannel w1 timestamp message w2 lat data He Hp Hf Hr Hok.
    unfold editMessage. rewrite (or_default_missing _ _ Hmiss).
    run. rewrite He, Hp, Hf. unfold axios. rewrite Hr. cbn [settled latency].
    rewrite Hok. cbn [negb]. unfold Date_now, cache_set.
    eexists. split; reflexivity.
Qed.

Lemma missing_text_defaults_witness :
  sendMessage (member_remote []) "C1" None world0
  = (Ok (mkResult true (mkData true None None None None) None),
     mkWorld ∅ 300
       [EvRequest AuthTest; EvRequest (ConversationsMembers "C1");
        EvRequest (ChatPostMessage "C1" "Hello from InternshipBot!")]).
Proof.
  apply (proj1 (proj2 (proj2
           (missing_text_defaults (fixedZone 0) (member_remote []) "C1" None
              "31/12/2023" "14:30" world0 eq_refl)))
           true
           (mkWorld ∅ 200 [EvRequest AuthTest; EvRequest (ConversationsMembers "C1")])
           100 (mkData true None None None None)).
  - vm_compute. reflexivity.
  - reflexivity.
  - reflexivity.
Defined.

(* ===================================================================== *)
(** ** The cache (lines 14-16, 113-120, 159-162)                          *)
(* ===================================================================== *)

Lemma cache_check_fresh key m t0 w :
  messageCache w !! key = Some (mkEntry m t0) ->
  now w - t0 < CACHE_TTL ->
  cache_check key w = (Ok (Some m), w).
Proof.
  intros Hl Ht. unfold cache_check, cache_get, Date_now. run. rewrite Hl.
  cbn [entry_timestamp entry_message].
  destruct (Z.ltb_spec (now w - t0) CACHE_TTL); [reflexivity | lia].
Qed.

Lemma cache_check_stale key m t0 w :
  messageCache w !! key = Some (mkEntry m t0) ->
  CACHE_TTL <= now w - t0 ->
  cache_check key w
  = (Ok None, mkWorld (delete key (messageCache w)) (now w) (trace w)).
Proof.
  intros Hl Ht. unfold cache_check, cache_get, Date_now, cache_delete. run.
  rewrite Hl. cbn [entry_timestamp entry_message].
  destruct (Z.ltb_spec (now w - t0) CACHE_TTL); [lia | reflexivity].
Qed.

Lemma cache_check_absent key w :
  messageCache w !! key = None -> cache_check key w = (Ok None, w).
Proof.
  intros Hl. unfold cache_check, cache_get. run. rewrite Hl. reflexivity.
Qed.

(** C5.  Let [m] be cached under [key] at the clock reading of [w], as the
    code does with [messageCache.set(key, { message, timestamp: Date.now() })].
    In any later world [w2] that still holds that entry, the check at the
    head of [findMessageByTimestamp] returns [m] as long as less than
    [CACHE_TTL] = 30000 ms have passed, and [findMessageByTimestamp] itself
    then answers [m] without touching the world; from 30000 ms on the check
    returns nothing and deletes the entry, and it stays empty in every world
    whose cache agrees on [key] with the resulting one. *)
Theorem cache_bounded_staleness key m w w2 :
  messageCache w2 !! key
  = messageCache (snd (cache_set key (mkEntry m (now w)) w)) !! key ->
  (now w2 - now w < 30000 ->
   cache_check key w2 = (Ok (Some m), w2)
   /\ forall remote channel timestamp,
        key = cacheKey_num channel timestamp ->
        findMessageByTimestamp remote channel timestamp w2 = (Ok m, w2))
  /\ (30000 <= now w2 - now w ->
      exists w3,
        cache_check key w2 = (Ok None, w3)
        /\ messageCache w3 !! key = None
        /\ now w3 = now w2 /\ trace w3 = trace w2
        /\ forall w4, messageCache w4 !! key = messageCache w3 !! key ->
                      cache_check key w4 = (Ok None, w4)).
Proof.
  intros Hc. cbn [cache_set snd messageCache] in Hc.
  rewrite lookup_insert_eq in Hc.
  split.
  - intros Ht.
    assert (Hhit : cache_check key w2 = (Ok (Some m), w2))
      by (apply (cache_check_fresh key m (now w)); assumption).
    split; [exact Hhit |].
    intros remote channel timestamp ->. unfold findMessageByTimestamp. run.
    rewrite Hhit. reflexivity.
  - intros Ht. eexists. split; [apply (cache_check_stale key m (now w)); assumption |].
    cbn [messageCache now trace].
    split; [apply lookup_delete_eq |]. split; [reflexivity |]. split; [reflexivity |].
    intros w4 H4. apply cache_check_absent. rewrite H4. apply lookup_delete_eq.
Qed.

Lemma cache_bounded_staleness_witness :
  let m := mkMessage "100.0" (Some "hi") in
  let cache : gmap string CacheEntry := {["C1:100" := mkEntry m 0]} in
  (cache_check "C1:100" (mkWorld cache 29999 [])
   = (Ok (Some m), mkWorld cache 29999 [])
   /\ findMessageByTimestamp (member_remote []) "C1" 100 (mkWorld cache 29999 [])
      = (Ok m, mkWorld cache 29999 []))
  /\ exists w3,
       cache_check "C1:100" (mkWorld cache 30000 []) = (Ok None, w3)
       /\ messageCache w3 !! "C1:100" = None.
Proof.
  intros m cache. split.
  - destruct (proj1 (cache_bounded_staleness "C1:100" m world0
                       (mkWorld cache 29999 []) eq_refl)) as [Hhit Hfind].
    + cbn [now world0]. lia.
    + split; [exact Hhit |]. apply Hfind. reflexivity.
  - destruct (proj2 (cache_bounded_staleness "C1:100" m world0
                       (mkWorld cache 30000 []) eq_refl))
      as (w3 & Hc & Hl & _).
    + cbn [now world0]. lia.
    + exists w3. split; assumption.
Defined.

(* ===================================================================== *)
(** ** The search loop (lines 122-176)                                    *)
(* ===================================================================== *)

Lemma searchAttempt_fails remote channel timestamp w :
  let reply := remote (trace w) (historyQuery channel timestamp) in
  attempt_fails reply = true ->
  searchAttempt remote channel timestamp w
  = (Throw (attempt_error reply),
     after_request w (historyQuery channel timestamp) (attempt_elapsed reply)).
Proof.
  intros reply Hf. unfold searchAttempt, race. run.
  fold (historyQuery channel timestamp). fold reply.
  unfold attempt_fails in Hf. unfold attempt_error, attempt_elapsed.
  destruct (Z.ltb_spec (latency reply) MESSAGE_SEARCH_TIMEOUT) as [Hlt | Hge].
  - destruct (Z.leb_spec MESSAGE_SEARCH_TIMEOUT (latency reply)); [lia |].
    cbn [orb] in Hf. unfold axios. fold reply.
    destruct (settled reply) as [data | e]; [| reflexivity].
    unfold no_candidates in Hf.
    destruct (ok data); cbn [negb orb] in Hf.
    + destruct (messages data) as [[| first rest] |]; try reflexivity. discriminate.
    + reflexivity.
  - destruct (Z.leb_spec MESSAGE_SEARCH_TIMEOUT (latency reply)); [| lia].
    reflexivity.
Qed.

Lemma cache_check_world key w r w' :
  cache_check key w = (r, w') -> now w' = now w /\ trace w' = trace w.
Proof.
  unfold cache_check, cache_get, Date_now, cache_delete. run.
  destruct (messageCache w !! key) as [cached |].
  - destruct (now w - entry_timestamp cached <? CACHE_TTL);
      intros [= <- <-]; split; reflexivity.
  - intros [= <- <-]; split; reflexivity.
Qed.

(** One failed turn of the loop with [k] turns left after it: the last turn
    throws, any other sleeps [500 * retries] ms and goes on. *)
Lemma searchLoop_fail_step remote channel timestamp k w :
  let reply := remote (trace w) (historyQuery channel timestamp) in
  let w1 := after_request w (historyQuery channel timestamp) (attempt_elapsed reply) in
  let retries := (S MAX_RETRIES - k)%nat in
  attempt_fails reply = true ->
  searchLoop remote channel timestamp (S k) w
  = if (MAX_RETRIES <? retries)%nat
    then (Throw (Error ("Failed to find message: " +:+ message (attempt_error reply))),
          w1)
    else searchLoop remote channel timestamp k
           (mkWorld (messageCache w1) (now w1 + 500 * Z.of_nat retries)
              (trace w1 ++ [EvSleep (500 * Z.of_nat retries)])).
Proof.
  intros reply w1 retries Hf. cbn [searchLoop]. run.
  rewrite (searchAttempt_fails remote channel timestamp w Hf).
  fold reply. fold w1. fold retries.
  destruct (MAX_RETRIES <? retries)%nat; reflexivity.
Qed.



(* ===================================================================== *)
(** ** The closest candidate (lines 147-164)                              *)
(* ===================================================================== *)

Lemma Qltb_true x y : Qltb x y = true -> (x < y)%Q.
Proof.
  unfold Qltb. intros H. apply negb_true_iff in H.
  apply Qnot_le_lt. intros Hle. apply Qle_bool_iff in Hle. congruence.
Qed.

Lemma Qltb_false x y : Qltb x y = false -> (y <= x)%Q.
Proof.
  unfold Qltb. intros H. apply negb_false_iff in H. apply Qle_bool_iff. exact H.
Qed.

Lemma closer_comparable timestamp prev curr :
  comparable timestamp prev -> comparable timestamp curr ->
  closer timestamp prev curr
  = Some (if Qltb (tsDiff timestamp curr) (tsDiff timestamp prev) then curr else prev).
Proof.
  unfold comparable, closer, tsDiff.
  intros (p & dp & -> & ->) (c & dc & -> & ->). reflexivity.
Qed.



(** The invariant of the [reduce]: the accumulator is the first closest
    element of the part of the array already visited. *)
Lemma reduce_invariant timestamp rest :
  forall pre prev i,
    Forall (comparable timestamp) rest -> comparable timestamp prev ->
    first_closest timestamp pre i prev ->
    exists i' m,
      foldl (fun acc curr =>
               match acc with
               | Some prev => closer timestamp prev curr
               | None => None
               end) (Some prev) rest = Some m
      /\ first_closest timestamp (pre ++ rest) i' m.
Proof.
  induction rest as [| curr rest IH]; intros pre prev i Hrest Hprev Hinv.
  - exists i, prev. rewrite app_nil_r. split; [reflexivity | exact Hinv].
  - apply Forall_cons in Hrest as [Hcurr Hrest].
    cbn [foldl]. rewrite (closer_comparable timestamp prev curr Hprev Hcurr).
    replace (pre ++ curr :: rest) with ((pre ++ [curr]) ++ rest)
      by (rewrite <- app_assoc; reflexivity).
    destruct Hinv as [Hi Hmin].
    assert (Hlt : (i < length pre)%nat) by (eapply lookup_lt_Some; exact Hi).
    destruct (Qltb (tsDiff timestamp curr) (tsDiff timestamp prev)) eqn:Hcmp.
    + apply Qltb_true in Hcmp.
      apply (IH (pre ++ [curr]) curr (length pre) Hrest Hcurr).
      split.
      * rewrite lookup_app_r by lia. rewrite Nat.sub_diag. reflexivity.
      * intros j m' Hj.
        destruct (decide (j < length pre)%nat) as [Hjl | Hjl].
        -- rewrite lookup_app_l in Hj by exact Hjl.
           destruct (Hmin j m' Hj) as [Hle _].
           split; [| intros _]; [apply Qlt_le_weak |];
             eapply Qlt_le_trans; eassumption.
        -- rewrite lookup_app_r in Hj by lia.
           destruct (j - length pre)%nat eqn:Hsub; [| destruct n; discriminate].
           injection Hj as <-. split; [apply Qle_refl | intros ?; lia].
    + apply Qltb_false in Hcmp.
      apply (IH (pre ++ [curr]) prev i Hrest Hprev).
      split.
      * rewrite lookup_app_l by exact Hlt. exact Hi.
      * intros j m' Hj.
        destruct (decide (j < length pre)%nat) as [Hjl | Hjl].
        -- rewrite lookup_app_l in Hj by exact Hjl. apply (Hmin j m' Hj).
        -- rewrite lookup_app_r in Hj by lia.
           destruct (j - length pre)%nat eqn:Hsub; [| destruct n; discriminate].
           injection Hj as <-. split; [exact Hcmp | intros ?; lia].
Qed.

Lemma reduce_first_closest timestamp first rest :
  Forall (comparable timestamp) (first :: rest) ->
  exists i m,
    reduce (closer timestamp) first rest = Some m
    /\ first_closest timestamp (first :: rest) i m.
Proof.
  intros H. apply Forall_cons in H as [Hfirst Hrest].
  apply (reduce_invariant timestamp rest [first] first 0%nat Hrest Hfirst).
  split; [reflexivity |].
  intros [| j] m' Hj; [| destruct j; discriminate].
  injection Hj as <-. split; [apply Qle_refl | intros ?; lia].
Qed.

(** A reply in time with candidates: the attempt returns the result of the
    [reduce] and caches it under the target key. *)
Lemma searchAttempt_success remote channel timestamp w data first rest m :
  let reply := remote (trace w) (historyQuery channel timestamp) in
  latency reply < MESSAGE_SEARCH_TIMEOUT ->
  settled reply = Resolve data ->
  ok data = true ->
  messages data = Some (first :: rest) ->
  reduce (closer timestamp) first rest = Some m ->
  searchAttempt remote channel timestamp w
  = (Ok m,
     mkWorld (<[cacheKey_num channel timestamp := mkEntry m (now w + latency reply)]>
                (messageCache w))
             (now w + latency reply)
             (trace w ++ [EvRequest (historyQuery channel timestamp)])).
Proof.
  intros reply Hlat Hset Hok Hmsgs Hred. unfold searchAttempt, race, axios. run.
  fold (historyQuery channel timestamp). fold reply.
  destruct (Z.ltb_spec (latency reply) MESSAGE_SEARCH_TIMEOUT); [| lia].
  rewrite Hset, Hok, Hmsgs, Hred. reflexivity.
Qed.

(** *** Rounding error below [2 ^ 35] *)

Lemma round_half_even_spec n d :
  0 < d -> - d <= 2 * (round_half_even n d * d - n) <= d.
Proof.
  intros Hd. unfold round_half_even.
  pose proof (Z.div_mod n d ltac:(lia)) as Hdm.
  pose proof (Z.mod_pos_bound n d Hd) as Hr.
  destruct (Z.ltb_spec (2 * (n mod d)) d).
  - nia.
  - destruct (Z.ltb_spec d (2 * (n mod d))).
    + nia.
    + destruct (Z.even (n / d)); nia.
Qed.

Lemma binade_upper n d B :
  0 < n -> 0 < d -> 0 <= B -> n < d * 2 ^ B -> binade n d <= B - 1.
Proof.
  intros Hn Hd HB Hlt. unfold binade, at_least_pow2.
  set (k := Z.log2 n - Z.log2 d).
  assert (Hk : k <= B).
  { subst k.
    assert (H : Z.log2 n <= Z.log2 (d * 2 ^ B)) by (apply Z.log2_le_mono; lia).
    rewrite Z.log2_mul_pow2 in H by lia. lia. }
  destruct (Z.leb_spec 0 k) as [Hk0 | Hk0].
  - destruct (Z.leb_spec (d * 2 ^ k) n) as [Hge | Hlt']; [| lia].
    destruct (Z.eq_dec k B) as [-> | Hne]; lia.
  - destruct (d <=? n * 2 ^ (- k)); lia.
Qed.

Lemma round64_pos_error n d :
  0 < n -> 0 < d -> n < d * 2 ^ 35 ->
  (Qabs (round64_pos n d - (n # Z.to_pos d)) <= 1 # 2 ^ 19)%Q.
Proof.
  intros Hn Hd Hlt. unfold round64_pos.
  pose proof (binade_upper n d 35 Hn Hd ltac:(lia) Hlt) as Hb.
  set (e := Z.max (binade n d - 52) (-1074)).
  assert (He : -1074 <= e <= -18) by lia.
  destruct (Z.leb_spec 0 e); [lia |].
  set (s := - e). assert (Hs : 18 <= s <= 1074) by lia.
  assert (HP : 2 ^ 18 <= 2 ^ s) by (apply Z.pow_le_mono_r; lia).
  set (P := 2 ^ s) in *.
  pose proof (round_half_even_spec (n * P) d Hd) as Hm.
  set (m := round_half_even (n * P) d) in *.
  apply Qabs_Qle_condition.
  unfold Qle, Qminus, Qplus, Qopp; cbn [Qnum Qden].
  rewrite !Pos2Z.inj_mul, !Z2Pos.id by lia.
  change (Z.pos (2 ^ 19)) with (2 ^ 19). change (- (1)) with (-1).
  split; nia.
Qed.

(** Below [2 ^ 35] in magnitude, rounding to binary64 does not overflow and
    moves a number by at most [2 ^ -19]. *)
Lemma round64_error x :
  (Qabs x < inject_Z (2 ^ 35))%Q ->
  exists y, round64 x = Some y /\ (Qabs (y - x) <= 1 # 2 ^ 19)%Q.
Proof.
  intros Hx. unfold round64.
  assert (Hno : Qle_bool overflow_threshold (Qabs x) = false).
  { destruct (Qle_bool overflow_threshold (Qabs x)) eqn:Hb; [| reflexivity].
    apply Qle_bool_iff in Hb. exfalso.
    apply (Qlt_irrefl (Qabs x)). eapply Qlt_le_trans; [exact Hx |].
    eapply Qle_trans; [| exact Hb]. unfold overflow_threshold.
    rewrite <- Zle_Qle. vm_compute. discriminate. }
  rewrite Hno. eexists. split; [reflexivity |].
  destruct x as [[| n | n] d]; cbn [Qnum Qden].
  - vm_compute. discriminate.
  - assert (Hlt : Z.pos n < Z.pos d * 2 ^ 35).
    { unfold Qlt, Qabs, inject_Z in Hx. cbn [Qnum Qden Z.abs] in Hx. lia. }
    pose proof (round64_pos_error (Z.pos n) (Z.pos d) ltac:(lia) ltac:(lia) Hlt) as H.
    cbn [Z.to_pos] in H. exact H.
  - assert (Hlt : Z.pos n < Z.pos d * 2 ^ 35).
    { unfold Qlt, Qabs, inject_Z in Hx. cbn [Qnum Qden Z.abs] in Hx. lia. }
    pose proof (round64_pos_error (Z.pos n) (Z.pos d) ltac:(lia) ltac:(lia) Hlt) as H.
    cbn [Z.to_pos] in H.
    assert (Heq : (- round64_pos (Z.pos n) (Z.pos d) - (Z.neg n # d)
                   == - (round64_pos (Z.pos n) (Z.pos d) - (Z.pos n # d)))%Q).
    { change (Z.neg n # d) with (- (Z.pos n # d))%Q. ring. }
    rewrite Heq, Qabs_opp. exact H.
Qed.

Lemma Qabs_diff_le a b e :
  (Qabs (a - b) <= e)%Q -> (Qabs (Qabs a - Qabs b) <= e)%Q.
Proof.
  intros H. apply Qabs_Qle_condition. apply Qabs_Qle_condition in H.
  destruct H as [H1 H2].
  split; apply (Qabs_case a); apply (Qabs_case b); intros; lra.
Qed.

(** For a target and a timestamp below [2 ^ 33], the difference the code
    computes exists and is within [2 ^ -18] of the exact distance: one
    rounding in [parseFloat], one in the subtraction. *)
Lemma tsDiff_near_exact timestamp m :
  Z.abs timestamp < 2 ^ 33 -> epoch_sized m ->
  comparable timestamp m
  /\ (Qabs (tsDiff timestamp m - exactDiff timestamp m) <= 1 # 2 ^ 18)%Q.
Proof.
  intros Ht (v & Hv & Hv0 & Hv1).
  assert (Htq : (- inject_Z (2 ^ 33) < inject_Z timestamp < inject_Z (2 ^ 33))%Q).
  { rewrite <- inject_Z_opp, <- !Zlt_Qlt. apply Z.abs_lt. exact Ht. }
  assert (H35 : (inject_Z (2 ^ 35) == 4 * inject_Z (2 ^ 33))%Q) by reflexivity.
  assert (H33 : (1 <= inject_Z (2 ^ 33))%Q)
    by (rewrite <- (Zle_Qle 1); vm_compute; discriminate).
  assert (H19 : (1 # 2 ^ 19 <= 1)%Q) by (vm_compute; discriminate).
  assert (H18 : (1 # 2 ^ 18 == 2 * (1 # 2 ^ 19))%Q) by reflexivity.
  destruct (round64_error v) as (p & Hp & Hpe).
  { rewrite H35. apply (Qabs_case v); intros; lra. }
  apply Qabs_Qle_condition in Hpe.
  destruct (round64_error (p - inject_Z timestamp)) as (d & Hd & Hde).
  { rewrite H35. apply (Qabs_case (p - inject_Z timestamp)); intros; lra. }
  unfold comparable, tsDiff, exactDiff, parseFloat, float_sub.
  rewrite Hv, Hp, Hd. split; [exists p, d; split; [reflexivity | exact Hd] |].
  apply Qabs_diff_le.
  apply Qabs_Qle_condition in Hde. apply Qabs_Qle_condition.
  rewrite H18. lra.
Qed.

Lemma epoch_sized_comparable timestamp l :
  Z.abs timestamp < 2 ^ 33 -> Forall epoch_sized l ->
  Forall (comparable timestamp) l.
Proof.
  intros Ht Hl. eapply Forall_impl; [exact Hl |].
  intros m Hm. apply (tsDiff_near_exact timestamp m Ht Hm).
Qed.

(** The candidate with the smallest computed difference is the closest in
    exact terms up to the rounding: no candidate is closer by more than
    [2 ^ -17]. *)
Lemma closest_within_rounding timestamp l i m :
  Z.abs timestamp < 2 ^ 33 -> Forall epoch_sized l ->
  first_closest timestamp l i m ->
  forall m', m' ∈ l ->
    (exactDiff timestamp m <= exactDiff timestamp m' + (1 # 2 ^ 17))%Q.
Proof.
  intros Ht Hl [Hi Hmin] m' Hm'.
  assert (Hm : m ∈ l) by (apply list_elem_of_lookup; exists i; exact Hi).
  apply list_elem_of_lookup in Hm' as [j Hj].
  destruct (Hmin j m' Hj) as [Hle _].
  rewrite Forall_forall in Hl.
  destruct (tsDiff_near_exact timestamp m Ht (Hl m Hm)) as [_ H1].
  destruct (tsDiff_near_exact timestamp m' Ht (Hl m' ltac:(apply list_elem_of_lookup; eauto)))
    as [_ H2].
  apply Qabs_Qle_condition in H1. apply Qabs_Qle_condition in H2.
  assert (H17 : (1 # 2 ^ 17 == 2 * (1 # 2 ^ 18))%Q) by reflexivity.
  rewrite H17. lra.
Qed.




(* ===================================================================== *)
(** ** Edit and delete (lines 273-350)                                    *)
(* ===================================================================== *)

(** C6.  A successful [editMessage] has passed the membership guard, parsed
    the date and time to a target and resolved a message for it; its last
    request is the update call carrying the [ts] of that message, and in the
    final world the cache entry under [channel:ts] holds the message with
    the new text, stamped with the current clock. *)
Theorem editMessage_updates_exact_timestamp
    LocalTZA remote channel date time (newText : option string) w r w' :
  editMessage LocalTZA remote channel date time newText w = (Ok r, w') ->
  exists inChannel w1 timestamp message w2,
    ensureBotInChannel remote channel w = (Ok inChannel, w1)
    /\ parseDateTime LocalTZA date time = Ok timestamp
    /\ findMessageByTimestamp remote channel timestamp w1 = (Ok message, w2)
    /\ trace w'
       = trace w2 ++ [EvRequest (ChatUpdate channel (ts message)
                                   (or_default newText
                                      "Updated message from InternshipBot!"))]
    /\ messageCache w' !! cacheKey_ts channel (ts message)
       = Some (mkEntry (with_text message newText) (now w')).
Proof.
  unfold editMessage. run. intros H.
  destruct (ensureBotInChannel remote channel w) as [[inChannel | e | ] w1] eqn:He;
    try discriminate.
  destruct (parseDateTime LocalTZA date time) as [timestamp | e | ] eqn:Hp;
    try discriminate.
  destruct (findMessageByTimestamp remote channel timestamp w1)
    as [[message | e | ] w2] eqn:Hf; try discriminate.
  unfold axios in H.
  destruct (settled (remote (trace w2) _)) as [data | e]; try discriminate.
  destruct (ok data); cbn [negb] in H; try discriminate.
  unfold Date_now, cache_set in H. injection H as <- <-.
  exists inChannel, w1, timestamp, message, w2.
  cbn [trace messageCache now after_request].
  refine (conj eq_refl (conj eq_refl (conj Hf (conj eq_refl _)))).
  apply lookup_insert_eq.
Qed.

Lemma editMessage_updates_exact_timestamp_witness :
  exists r w',
    editMessage (fixedZone 0)
      (member_remote [mkMessage "1704033000.000100" (Some "old")])
      "C1" "31/12/2023" "14:30" (Some "new") world0 = (Ok r, w')
    /\ last (trace w') = Some (EvRequest (ChatUpdate "C1" "1704033000.000100" "new"))
    /\ messageCache w' !! "C1:1704033000.000100"
       = Some (mkEntry (mkMessage "1704033000.000100" (Some "new")) 400).
Proof.
  destruct (editMessage (fixedZone 0)
              (member_remote [mkMessage "1704033000.000100" (Some "old")])
              "C1" "31/12/2023" "14:30" (Some "new") world0) as [[r | e | ] w'] eqn:H;
    try (vm_compute in H; discriminate).
  exists r, w'. split; [reflexivity |].
  destruct (editMessage_updates_exact_timestamp _ _ _ _ _ _ _ _ _ H)
    as (inChannel & w1 & timestamp & message & w2 & He & Hp & Hf & Htr & Hc).
  vm_compute in Hp. injection Hp as <-.
  vm_compute in He. injection He as <- <-.
  vm_compute in Hf. injection Hf as <- <-.
  split.
  - rewrite Htr. reflexivity.
  - vm_compute in H. injection H as <- <-. vm_compute. reflexivity.
Defined.

(** A successful attempt leaves its result cached under the target key. *)
Lemma searchAttempt_ok_cached remote channel timestamp w m w' :
  searchAttempt remote channel timestamp w = (Ok m, w') ->
  messageCache w' !! cacheKey_num channel timestamp = Some (mkEntry m (now w')).
Proof.
  unfold searchAttempt, race, axios. run.
  destruct (latency _ <? MESSAGE_SEARCH_TIMEOUT); [| discriminate].
  destruct (settled _) as [data | e]; [| discriminate].
  destruct (ok data); [| discriminate].
  destruct (messages data) as [[| first rest] |]; try discriminate.
  destruct (reduce (closer timestamp) first rest) as [closest |]; [| discriminate].
  unfold Date_now, cache_set. intros [= <- <-].
  cbn [messageCache now after_request]. apply lookup_insert_eq.
Qed.

Lemma searchLoop_ok_cached remote channel timestamp k :
  forall w m w',
    searchLoop remote channel timestamp k w = (Ok m, w') ->
    messageCache w' !! cacheKey_num channel timestamp = Some (mkEntry m (now w')).
Proof.
  induction k as [| k IH]; intros w m w'; cbn [searchLoop]; run; [discriminate |].
  destruct (searchAttempt remote channel timestamp w) as [[m0 | e | ] w0] eqn:Ha.
  - intros [= <- <-]. eapply searchAttempt_ok_cached. exact Ha.
  - destruct (MAX_RETRIES <? S MAX_RETRIES - k)%nat; [discriminate |].
    unfold sleep. apply IH.
  - discriminate.
Qed.

(** Whatever [findMessageByTimestamp] returns is cached under the target
    key and still fresh. *)
Lemma findMessageByTimestamp_ok_cached remote channel timestamp w m w' :
  findMessageByTimestamp remote channel timestamp w = (Ok m, w') ->
  exists t,
    messageCache w' !! cacheKey_num channel timestamp = Some (mkEntry m t)
    /\ now w' - t < CACHE_TTL.
Proof.
  unfold findMessageByTimestamp, cache_check, cache_get, Date_now, cache_delete. run.
  destruct (messageCache w !! cacheKey_num channel timestamp) as [[m0 t0] |] eqn:Hl.
  - cbn [entry_timestamp entry_message].
    destruct (Z.ltb_spec (now w - t0) CACHE_TTL) as [Hlt | Hge].
    + intros [= <- <-]. exists t0. split; assumption.
    + intros H. apply searchLoop_ok_cached in H. exists (now w').
      split; [exact H | unfold CACHE_TTL; lia].
  - intros H. apply searchLoop_ok_cached in H. exists (now w').
    split; [exact H | unfold CACHE_TTL; lia].
Qed.

Lemma cacheKey_ts_num channel s n :
  cacheKey_ts channel s = cacheKey_num channel n -> s = pretty n.
Proof.
  unfold cacheKey_ts, cacheKey_num. intros H.
  apply String.app_inj in H. apply String.app_inj in H. exact H.
Qed.

(** What a successful [deleteMessage] leaves behind.  The entry it deletes
    is the one under [channel:ts] of the message; the entry that
    [findMessageByTimestamp] keeps under the target key is another one as
    soon as [ts] is not the decimal form of the target, and a later lookup
    of the same target, within the time to live, is answered from it: the
    deleted message comes back and no request goes out. *)
Lemma deleteMessage_keeps_target_entry
    LocalTZA remote channel date time w r w' :
  deleteMessage LocalTZA remote channel date time w = (Ok r, w') ->
  exists timestamp message t,
    parseDateTime LocalTZA date time = Ok timestamp
    /\ last (trace w') = Some (EvRequest (ChatDelete channel (ts message)))
    /\ messageCache w' !! cacheKey_ts channel (ts message) = None
    /\ (ts message <> pretty timestamp ->
        messageCache w' !! cacheKey_num channel timestamp = Some (mkEntry message t)
        /\ forall w'',
            messageCache w'' = messageCache w' ->
            now w'' - t < CACHE_TTL ->
            findMessageByTimestamp remote channel timestamp w'' = (Ok message, w'')).
Proof.
  unfold deleteMessage. run. intros H.
  destruct (ensureBotInChannel remote channel w) as [[inChannel | e | ] w1] eqn:He;
    try discriminate.
  destruct (parseDateTime LocalTZA date time) as [timestamp | e | ] eqn:Hp;
    try discriminate.
  destruct (findMessageByTimestamp remote channel timestamp w1)
    as [[message | e | ] w2] eqn:Hf; try discriminate.
  unfold axios in H.
  destruct (settled (remote (trace w2) _)) as [data | e]; try discriminate.
  destruct (ok data); cbn [negb] in H; try discriminate.
  unfold cache_delete in H. injection H as <- <-.
  destruct (findMessageByTimestamp_ok_cached _ _ _ _ _ _ Hf) as (t & Hl & Hfresh).
  exists timestamp, message, t. cbn [trace messageCache now after_request].
  refine (conj eq_refl (conj _ (conj _ _))).
  - apply last_snoc.
  - apply lookup_delete_eq.
  - intros Hne.
    assert (Hk : cacheKey_ts channel (ts message) <> cacheKey_num channel timestamp).
    { intros Hk. apply Hne. eapply cacheKey_ts_num. exact Hk. }
    assert (Hkeep : delete (cacheKey_ts channel (ts message)) (messageCache w2)
                      !! cacheKey_num channel timestamp
                    = Some (mkEntry message t)).
    { rewrite lookup_delete_ne by exact Hk. exact Hl. }
    split; [exact Hkeep |].
    intros w'' Hc Ht. unfold findMessageByTimestamp. run.
    rewrite (cache_check_fresh _ message t w''); [reflexivity | | exact Ht].
    rewrite Hc. exact Hkeep.
Qed.

(** C1: the code at the failing input.  The history holds one message, with
    [ts] 1704033000.000100; a UTC host deletes it by 31/12/2023 14:30, which
    is the target 1704033000.  The delete succeeds and removes the key
    [C1:1704033000.000100], which was never set; the entry that the lookup
    stored under the target key [C1:1704033000] stays, and the next lookup
    of the same target returns the deleted message from it in an unchanged
    world: no request goes out. *)
Theorem deleteMessage_leaves_stale_entry :
  let deleted := mkMessage "1704033000.000100" (Some "hello") in
  let remote := member_remote [deleted] in
  exists r w1,
    deleteMessage (fixedZone 0) remote "C1" "31/12/2023" "14:30" world0 = (Ok r, w1)
    /\ parseDateTime (fixedZone 0) "31/12/2023" "14:30" = Ok 1704033000
    /\ last (trace w1) = Some (EvRequest (ChatDelete "C1" "1704033000.000100"))
    /\ messageCache w1 !! "C1:1704033000.000100" = None
    /\ messageCache w1 !! "C1:1704033000" = Some (mkEntry deleted 300)
    /\ findMessageByTimestamp remote "C1" 1704033000 w1 = (Ok deleted, w1).
Proof.
  intros deleted remote.
  destruct (deleteMessage (fixedZone 0) remote "C1" "31/12/2023" "14:30" world0)
    as [[r | e | ] w1] eqn:H; try (vm_compute in H; discriminate).
  exists r, w1. split; [reflexivity |].
  vm_compute in H. injection H as <- <-.
  repeat split; vm_compute; reflexivity.
Qed.

(* ===================================================================== *)
(** ** What leaves the cache alone                                        *)
(* ===================================================================== *)

Lemma keeps_cache_ret {A} (a : A) : keeps_cache (ret a).
Proof. intros w. reflexivity. Qed.

Lemma keeps_cache_throw {A} e : keeps_cache (@throw A e).
Proof. intros w. reflexivity. Qed.

Lemma keeps_cache_lift {A} (r : Result A) : keeps_cache (lift r).
Proof. intros w. reflexivity. Qed.

Lemma keeps_cache_bind {A B} (m : M A) (f : A -> M B) :
  keeps_cache m -> (forall a, keeps_cache (f a)) -> keeps_cache (bind m f).
Proof.
  intros Hm Hf w. unfold bind. specialize (Hm w).
  destruct (m w) as [[a | e | ] w1]; cbn [snd] in *; [| exact Hm | exact Hm].
  rewrite Hf. exact Hm.
Qed.

Lemma keeps_cache_try_catch {A} (body : M A) handler :
  keeps_cache body -> (forall e, keeps_cache (handler e)) ->
  keeps_cache (try_catch body handler).
Proof.
  intros Hm Hh w. unfold try_catch. specialize (Hm w).
  destruct (body w) as [[a | e | ] w1]; cbn [snd] in *; [exact Hm | | exact Hm].
  rewrite Hh. exact Hm.
Qed.

Lemma keeps_cache_axios remote r : keeps_cache (axios remote r).
Proof.
  intros w. unfold axios. destruct (settled (remote (trace w) r)); reflexivity.
Qed.

Lemma keeps_cache_isBotInChannel remote channel :
  keeps_cache (isBotInChannel remote channel).
Proof.
  unfold isBotInChannel.
  apply keeps_cache_try_catch; [| intros; apply keeps_cache_ret].
  apply keeps_cache_bind; [apply keeps_cache_axios | intros botRes].
  apply keeps_cache_bind; [apply keeps_cache_axios | intros res].
  destruct (members res); [apply keeps_cache_ret | apply keeps_cache_throw].
Qed.

Lemma keeps_cache_joinChannel remote channel :
  keeps_cache (joinChannel remote channel).
Proof.
  unfold joinChannel.
  apply keeps_cache_try_catch; [| intros; apply keeps_cache_throw].
  apply keeps_cache_bind; [apply keeps_cache_axios | intros res].
  destruct (negb (ok res)); [apply keeps_cache_throw | apply keeps_cache_ret].
Qed.

Lemma keeps_cache_ensureBotInChannel remote channel :
  keeps_cache (ensureBotInChannel remote channel).
Proof.
  unfold ensureBotInChannel.
  apply keeps_cache_try_catch; [| intros; apply keeps_cache_throw].
  destruct (invalid_channel channel); [apply keeps_cache_throw |].
  apply keeps_cache_bind; [apply keeps_cache_isBotInChannel | intros b].
  apply keeps_cache_bind; [| intros; apply keeps_cache_ret].
  destruct (negb b); [apply keeps_cache_joinChannel | apply keeps_cache_ret].
Qed.

(** The membership guard, [sendMessage] and [scheduleMessage] never write
    to [messageCache], whatever the remote platform answers and whether they
    succeed or fail: only listing, lookup, edit and delete touch it. *)
Theorem guard_send_schedule_keep_cache LocalTZA remote channel text date time :
  keeps_cache (ensureBotInChannel remote channel)
  /\ keeps_cache (sendMessage remote channel text)
  /\ keeps_cache (scheduleMessage LocalTZA remote channel text date time).
Proof.
  split; [apply keeps_cache_ensureBotInChannel | split].
  - unfold sendMessage.
    apply keeps_cache_try_catch; [| intros; apply keeps_cache_throw].
    apply keeps_cache_bind; [apply keeps_cache_ensureBotInChannel | intros _].
    apply keeps_cache_bind; [apply keeps_cache_axios | intros res].
    destruct (negb (ok res)); [apply keeps_cache_throw | apply keeps_cache_ret].
  - unfold scheduleMessage.
    apply keeps_cache_try_catch; [| intros; apply keeps_cache_throw].
    apply keeps_cache_bind; [apply keeps_cache_ensureBotInChannel | intros _].
    apply keeps_cache_bind; [apply keeps_cache_lift | intros postAt].
    apply keeps_cache_bind; [apply keeps_cache_axios | intros res].
    destruct (negb (ok res)); [apply keeps_cache_throw | apply keeps_cache_ret].
Qed.

(* ===================================================================== *)
(** ** Membership guard (lines 52-107)                                    *)
(* ===================================================================== *)

(** [isBotInChannel] never throws.  It asks for the bot's identity and, when
    that resolves, for the member list; it leaves the cache alone; and it
    answers [true] exactly when both calls resolve and the member list
    holds the bot's id.  Every failure on the way reads as "not a member". *)
Theorem isBotInChannel_best_effort remote channel w :
  exists b w',
    isBotInChannel remote channel w = (Ok b, w')
    /\ messageCache w' = messageCache w
    /\ (trace w' = trace w ++ [EvRequest AuthTest]
        \/ trace w' = trace w ++ [EvRequest AuthTest;
                                  EvRequest (ConversationsMembers channel)])
    /\ (b = true <->
        exists d1 d2 u l,
          settled (remote (trace w) AuthTest) = Resolve d1
          /\ user_id d1 = Some u
          /\ settled (remote (trace w ++ [EvRequest AuthTest])
                        (ConversationsMembers channel)) = Resolve d2
          /\ members d2 = Some l
          /\ u ∈ l).
Proof.
  unfold isBotInChannel, axios. run. cbn [after_request trace].
  destruct (settled (remote (trace w) AuthTest)) as [d1 | e1] eqn:H1;
    cbn [after_request trace].
  - destruct (settled (remote (trace w ++ [EvRequest AuthTest])
                         (ConversationsMembers channel))) as [d2 | e2] eqn:H2.
    + destruct (members d2) as [l |] eqn:Hm.
      * eexists _, _. split; [reflexivity |]. cbn [messageCache trace after_request].
        split; [reflexivity |].
        split; [right; rewrite <- app_assoc; reflexivity |].
        unfold includes. destruct (user_id d1) as [u |] eqn:Hu.
        -- split.
           ++ intros Hb. apply bool_decide_eq_true_1 in Hb.
              exists d1, d2, u, l. repeat split; try reflexivity; assumption.
           ++ intros (d1' & d2' & u' & l' & [= <-] & Hu' & [= <-] & Hl' & Hin).
              rewrite Hu in Hu'. injection Hu' as <-. rewrite Hm in Hl'.
              injection Hl' as <-. apply bool_decide_eq_true_2. exact Hin.
        -- split; [discriminate |].
           intros (d1' & d2' & u' & l' & [= <-] & Hu' & _). congruence.
      * eexists _, _. split; [reflexivity |]. cbn [messageCache trace after_request].
        split; [reflexivity |].
        split; [right; rewrite <- app_assoc; reflexivity |].
        split; [discriminate |].
        intros (d1' & d2' & u' & l' & _ & _ & [= <-] & Hl' & _). congruence.
    + eexists _, _. split; [reflexivity |]. cbn [messageCache trace after_request].
      split; [reflexivity |].
      split; [right; rewrite <- app_assoc; reflexivity |].
      split; [discriminate |].
      intros (d1' & d2' & u' & l' & _ & _ & Hd & _). discriminate.
  - eexists _, _. split; [reflexivity |]. cbn [messageCache trace after_request].
    split; [reflexivity |]. split; [left; reflexivity |].
    split; [discriminate |].
    intros (d1' & d2' & u' & l' & Hd & _). discriminate.
Qed.

Lemma joinChannel_result remote channel w :
  joinChannel remote channel w
  = (join_result (remote (trace w) (ConversationsJoin channel)),
     after_request w (ConversationsJoin channel)
       (latency (remote (trace w) (ConversationsJoin channel)))).
Proof.
  unfold joinChannel, axios, join_result. run.
  destruct (settled (remote (trace w) (ConversationsJoin channel))) as [data | e];
    [| reflexivity].
  destruct (ok data); reflexivity.
Qed.

Lemma ensureBotInChannel_valid remote channel w b w1 :
  invalid_channel channel = false ->
  isBotInChannel remote channel w = (Ok b, w1) ->
  ensureBotInChannel remote channel w
  = if b then (Ok true, w1)
    else (join_result (remote (trace w1) (ConversationsJoin channel)),
          after_request w1 (ConversationsJoin channel)
            (latency (remote (trace w1) (ConversationsJoin channel)))).
Proof.
  intros Hv Hb. unfold ensureBotInChannel. rewrite Hv. run. rewrite Hb.
  destruct b; [reflexivity |]. cbn [negb]. rewrite joinChannel_result.
  unfold join_result.
  destruct (settled (remote (trace w1) (ConversationsJoin channel))) as [data | e];
    [| reflexivity].
  destruct (ok data); reflexivity.
Qed.

(** For a well-shaped channel id the guard asks for membership first.  A
    member costs no join call; for a non-member exactly one join call
    follows, and the guard succeeds when the reply says [ok] and throws
    "Failed to join channel: " with the platform's reason otherwise (the
    fallback text when the reply names none, the client's own message when
    the call was rejected without a body). *)
Theorem ensureBotInChannel_joins_when_needed remote channel w b w1 :
  invalid_channel channel = false ->
  isBotInChannel remote channel w = (Ok b, w1) ->
  ensureBotInChannel remote channel w
  = if b then (Ok true, w1)
    else (match settled (remote (trace w1) (ConversationsJoin channel)) with
          | Resolve data =>
              if ok data then Ok true
              else Throw (Error ("Failed to join channel: "
                                 +:+ or_default (error data) "Failed to join channel"))
          | Reject e =>
              Throw (Error ("Failed to join channel: "
                            +:+ response_error_or_message e))
          end,
          after_request w1 (ConversationsJoin channel)
            (latency (remote (trace w1) (ConversationsJoin channel)))).
Proof. apply ensureBotInChannel_valid. Qed.

Lemma ensureBotInChannel_joins_when_needed_witness :
  ensureBotInChannel (stranger_remote []) "C1" world0
  = (Ok true,
     mkWorld ∅ 300 [EvRequest AuthTest; EvRequest (ConversationsMembers "C1");
                    EvRequest (ConversationsJoin "C1")]).
Proof.
  apply (ensureBotInChannel_joins_when_needed (stranger_remote []) "C1" world0 false
           (mkWorld ∅ 200 [EvRequest AuthTest; EvRequest (ConversationsMembers "C1")])).
  - reflexivity.
  - vm_compute. reflexivity.
Defined.

(** Sending to a well-shaped channel the bot is not yet in: when the join
    and the post both answer [ok], [sendMessage] succeeds, the join call
    goes out before the post call, and the post call carries the supplied
    text unchanged. *)
Theorem sendMessage_joins_before_posting remote channel text w w1 dj dp latp :
  invalid_channel channel = false ->
  text <> EmptyString ->
  isBotInChannel remote channel w = (Ok false, w1) ->
  settled (remote (trace w1) (ConversationsJoin channel)) = Resolve dj ->
  ok dj = true ->
  remote (trace w1 ++ [EvRequest (ConversationsJoin channel)])
         (ChatPostMessage channel text) = mkReply latp (Resolve dp) ->
  ok dp = true ->
  exists w',
    sendMessage remote channel (Some text) w = (Ok (mkResult true dp None), w')
    /\ trace w' = trace w1 ++ [EvRequest (ConversationsJoin channel);
                               EvRequest (ChatPostMessage channel text)]
    /\ messageCache w' = messageCache w.
Proof.
  intros Hv Ht Hb Hj Hjok Hp Hpok.
  unfold sendMessage. run.
  rewrite (ensureBotInChannel_valid remote channel w false w1 Hv Hb).
  unfold join_result. rewrite Hj, Hjok.
  unfold or_default. rewrite bool_decide_eq_false_2 by exact Ht.
  unfold axios. cbn [after_request trace]. rewrite Hp. cbn [settled latency].
  rewrite Hpok. cbn [negb].
  eexists. split; [reflexivity |]. cbn [trace messageCache after_request].
  split; [rewrite <- app_assoc; reflexivity |].
  pose proof (keeps_cache_isBotInChannel remote channel w) as Hc.
  rewrite Hb in Hc. exact Hc.
Qed.

Lemma sendMessage_joins_before_posting_witness :
  exists w',
    sendMessage (stranger_remote []) "C1" (Some "hello") world0
    = (Ok (mkResult true (mkData true None None None None) None), w')
    /\ trace w'
       = [EvRequest AuthTest; EvRequest (ConversationsMembers "C1");
          EvRequest (ConversationsJoin "C1");
          EvRequest (ChatPostMessage "C1" "hello")]
    /\ messageCache w' = ∅.
Proof.
  apply (sendMessage_joins_before_posting (stranger_remote []) "C1" "hello" world0
           (mkWorld ∅ 200 [EvRequest AuthTest; EvRequest (ConversationsMembers "C1")])
           (mkData true None None None None) (mkData true None None None None) 100).
  - reflexivity.
  - discriminate.
  - vm_compute. reflexivity.
  - reflexivity.
  - reflexivity.
  - reflexivity.
  - reflexivity.
Defined.

(* ===================================================================== *)
(** ** What a lookup does to the world (lines 109-176)                    *)
(* ===================================================================== *)

(** One attempt: one request, at most the timeout on the clock, no key of
    the cache touched but the target key, which holds the result after a
    success and is left alone otherwise. *)
Lemma searchAttempt_effects remote channel timestamp w :
  exists r w1,
    searchAttempt remote channel timestamp w = (r, w1)
    /\ trace w1 = trace w ++ [EvRequest (historyQuery channel timestamp)]
    /\ now w1 <= now w + 5000
    /\ (forall k, k <> cacheKey_num channel timestamp ->
                  messageCache w1 !! k = messageCache w !! k)
    /\ match r with
       | Ok m => messageCache w1 !! cacheKey_num channel timestamp
                 = Some (mkEntry m (now w1))
       | _ => messageCache w1 = messageCache w
       end.
Proof.
  unfold searchAttempt, race, axios. run.
  fold (historyQuery channel timestamp).
  set (reply := remote (trace w) (historyQuery channel timestamp)).
  unfold MESSAGE_SEARCH_TIMEOUT.
  destruct (Z.ltb_spec (latency reply) 5000) as [Hlt | Hge].
  - destruct (settled reply) as [data | e].
    + destruct (if ok data then messages data else None) as [[| first rest] |].
      * eexists _, _. split; [reflexivity |]. cbn [after_request trace now messageCache].
        repeat split; try reflexivity; lia.
      * destruct (reduce (closer timestamp) first rest) as [closest |].
        -- eexists _, _. split; [reflexivity |].
           unfold Date_now, cache_set. cbn [after_request trace now messageCache].
           split; [reflexivity |]. split; [lia |].
           split; [intros k Hk; apply lookup_insert_ne; congruence |].
           apply lookup_insert_eq.
        -- eexists _, _. split; [reflexivity |]. cbn [after_request trace now messageCache].
           repeat split; try reflexivity; lia.
      * eexists _, _. split; [reflexivity |]. cbn [after_request trace now messageCache].
        repeat split; try reflexivity; lia.
    + eexists _, _. split; [reflexivity |]. cbn [after_request trace now messageCache].
      repeat split; try reflexivity; lia.
  - eexists _, _. split; [reflexivity |]. cbn [after_request trace now messageCache].
    repeat split; try reflexivity; lia.
Qed.

Lemma searchLoop_step remote channel timestamp k w :
  searchLoop remote channel timestamp (S k) w
  = match searchAttempt remote channel timestamp w with
    | (Throw e, w1) =>
        if (MAX_RETRIES <? S MAX_RETRIES - k)%nat
        then (Throw (Error ("Failed to find message: " +:+ message e)), w1)
        else searchLoop remote channel timestamp k
               (mkWorld (messageCache w1)
                  (now w1 + 500 * Z.of_nat (S MAX_RETRIES - k))
                  (trace w1 ++ [EvSleep (500 * Z.of_nat (S MAX_RETRIES - k))]))
    | r => r
    end.
Proof.
  cbn [searchLoop]. run.
  destruct (searchAttempt remote channel timestamp w) as [[m | e | ] w1];
    try reflexivity.
  destruct (MAX_RETRIES <? S MAX_RETRIES - k)%nat; reflexivity.
Qed.

(** The three turns of the loop, from a world [w0]. *)
Lemma searchLoop_effects remote channel timestamp w0 :
  exists r w' n,
    searchLoop remote channel timestamp (S MAX_RETRIES) w0 = (r, w')
    /\ (1 <= n <= 3)%nat
    /\ trace w' = trace w0 ++ search_events channel timestamp n
    /\ now w' <= now w0 + 16500
    /\ (forall k, k <> cacheKey_num channel timestamp ->
                  messageCache w' !! k = messageCache w0 !! k)
    /\ match r with
       | Ok m => messageCache w' !! cacheKey_num channel timestamp
                 = Some (mkEntry m (now w'))
       | Throw e => messageCache w' = messageCache w0 /\ n = 3%nat
                    /\ exists reason,
                         e = Error ("Failed to find message: " +:+ reason)
       | Beyond => messageCache w' = messageCache w0
       end.
Proof.
  rewrite searchLoop_step.
  destruct (searchAttempt_effects remote channel timestamp w0)
    as (r1 & w1 & -> & Ht1 & Hn1 & Hf1 & Hr1).
  destruct r1 as [m | e1 | ].
  1, 3: eexists _, w1, 1%nat; (split; [reflexivity |]); (split; [lia |]);
        (split; [exact Ht1 |]); (split; [lia |]); (split; [exact Hf1 |]);
        exact Hr1.
  change (MAX_RETRIES <? S MAX_RETRIES - MAX_RETRIES)%nat with false. cbv iota.
  change (S MAX_RETRIES - MAX_RETRIES)%nat with 1%nat.
  change MAX_RETRIES with 2%nat at 1.
  rewrite searchLoop_step.
  match goal with |- context [searchAttempt remote channel timestamp ?w] =>
    destruct (searchAttempt_effects remote channel timestamp w)
      as (r2 & w2 & -> & Ht2 & Hn2 & Hf2 & Hr2) end.
  cbn [trace now messageCache] in Ht2, Hn2, Hf2, Hr2.
  destruct r2 as [m | e2 | ].
  1, 3: eexists _, w2, 2%nat; (split; [reflexivity |]); (split; [lia |]);
        (split; [rewrite Ht2, Ht1, <- !app_assoc; reflexivity |]);
        (split; [lia |]);
        (split; [intros k Hk; rewrite Hf2, Hf1 by exact Hk; reflexivity |]);
        try exact Hr2; congruence.
  change (MAX_RETRIES <? S MAX_RETRIES - 1)%nat with false. cbv iota.
  change (S MAX_RETRIES - 1)%nat with 2%nat.
  rewrite searchLoop_step.
  match goal with |- context [searchAttempt remote channel timestamp ?w] =>
    destruct (searchAttempt_effects remote channel timestamp w)
      as (r3 & w3 & -> & Ht3 & Hn3 & Hf3 & Hr3) end.
  cbn [trace now messageCache] in Ht3, Hn3, Hf3, Hr3.
  assert (Htr : trace w3 = trace w0 ++ search_events channel timestamp 3).
  { rewrite Ht3, Ht2, Ht1, <- !app_assoc. reflexivity. }
  assert (Hfr : forall k, k <> cacheKey_num channel timestamp ->
                          messageCache w3 !! k = messageCache w0 !! k).
  { intros k Hk. rewrite Hf3, Hf2, Hf1 by exact Hk. reflexivity. }
  destruct r3 as [m | e3 | ].
  - exists (Ok m), w3, 3%nat. repeat split; try assumption; lia.
  - change (MAX_RETRIES <? S MAX_RETRIES - 0)%nat with true. cbv iota.
    eexists _, w3, 3%nat. split; [reflexivity |].
    split; [lia |]. split; [exact Htr |]. split; [lia |]. split; [exact Hfr |].
    split; [congruence |]. split; [reflexivity |].
    exists (message e3). reflexivity.
  - exists Beyond, w3, 3%nat. repeat split; try assumption; try lia. congruence.
Qed.

(** The whole lookup, cache check included. *)
Lemma findMessageByTimestamp_effects remote channel timestamp w :
  exists r w' n,
    findMessageByTimestamp remote channel timestamp w = (r, w')
    /\ (n <= 3)%nat
    /\ trace w' = trace w ++ search_events channel timestamp n
    /\ now w' <= now w + 16500
    /\ (forall k, k <> cacheKey_num channel timestamp ->
                  messageCache w' !! k = messageCache w !! k)
    /\ match r with
       | Ok m => exists t,
                   messageCache w' !! cacheKey_num channel timestamp
                   = Some (mkEntry m t)
                   /\ now w' - t < CACHE_TTL
       | Throw e => messageCache w' !! cacheKey_num channel timestamp = None
                    /\ n = 3%nat
                    /\ exists reason,
                         e = Error ("Failed to find message: " +:+ reason)
       | Beyond => True
       end.
Proof.
  unfold findMessageByTimestamp. run.
  set (key := cacheKey_num channel timestamp).
  assert (Hloop : forall w0,
             now w0 = now w -> trace w0 = trace w ->
             (forall k, k <> key -> messageCache w0 !! k = messageCache w !! k) ->
             messageCache w0 !! key = None ->
             exists r w' n,
               searchLoop remote channel timestamp (S MAX_RETRIES) w0 = (r, w')
               /\ (n <= 3)%nat
               /\ trace w' = trace w ++ search_events channel timestamp n
               /\ now w' <= now w + 16500
               /\ (forall k, k <> key -> messageCache w' !! k = messageCache w !! k)
               /\ match r with
                  | Ok m => exists t,
                              messageCache w' !! key = Some (mkEntry m t)
                              /\ now w' - t < CACHE_TTL
                  | Throw e => messageCache w' !! key = None /\ n = 3%nat
                               /\ exists reason,
                                    e = Error ("Failed to find message: " +:+ reason)
                  | Beyond => True
                  end).
  { intros w0 Hn0 Ht0 Hf0 Hk0.
    destruct (searchLoop_effects remote channel timestamp w0)
      as (r & w' & n & Hrun & Hn & Htr & Hnow & Hfr & Hres).
    fold key in Hfr, Hres.
    exists r, w', n. split; [exact Hrun |]. split; [lia |].
    split; [rewrite Htr, Ht0; reflexivity |]. split; [lia |].
    split; [intros k Hk; rewrite Hfr, Hf0 by exact Hk; reflexivity |].
    destruct r as [m | e | ]; [| | exact I].
    - exists (now w'). split; [exact Hres | unfold CACHE_TTL; lia].
    - destruct Hres as (Hc & Hn3 & Hreason).
      split; [rewrite Hc; exact Hk0 | split; assumption]. }
  unfold cache_check, cache_get, Date_now, cache_delete. run.
  destruct (messageCache w !! key) as [[m0 t0] |] eqn:Hl.
  - cbn [entry_timestamp entry_message].
    destruct (Z.ltb_spec (now w - t0) CACHE_TTL) as [Hlt | Hge].
    + exists (Ok m0), w, 0%nat. split; [reflexivity |]. split; [lia |].
      split; [cbn [search_events]; rewrite app_nil_r; reflexivity |].
      split; [lia |]. split; [reflexivity |]. exists t0. split; assumption.
    + apply Hloop; cbn [now trace messageCache]; try reflexivity.
      * intros k Hk. apply lookup_delete_ne. congruence.
      * apply lookup_delete_eq.
  - apply Hloop; try reflexivity. exact Hl.
Qed.

(** A lookup cannot hold its caller for long: whatever the remote platform
    does, it sends the history query at most [1 + MAX_RETRIES = 3] times,
    its events are those of zero to three attempts with the 500 ms and 1000
    ms sleeps in between, and the clock advances by at most three timeouts
    plus the two sleeps, 16.5 s. *)
Theorem findMessageByTimestamp_bounded remote channel timestamp w :
  exists n,
    (n <= 1 + MAX_RETRIES)%nat
    /\ trace (snd (findMessageByTimestamp remote channel timestamp w))
       = trace w ++ search_events channel timestamp n
    /\ now (snd (findMessageByTimestamp remote channel timestamp w))
       <= now w + 3 * MESSAGE_SEARCH_TIMEOUT + 500 + 1000.
Proof.
  destruct (findMessageByTimestamp_effects remote channel timestamp w)
    as (r & w' & n & -> & Hn & Htr & Hnow & _).
  exists n. cbn [snd]. unfold MAX_RETRIES, MESSAGE_SEARCH_TIMEOUT.
  split; [lia |]. split; [exact Htr | lia].
Qed.

(** A lookup touches one cache key only, the one of its own channel and
    target.  When it fails, that key is left empty, three attempts have been
    made, and the error reads "Failed to find message: " and a reason. *)
Theorem findMessageByTimestamp_frame remote channel timestamp w :
  (forall k, k <> cacheKey_num channel timestamp ->
             messageCache (snd (findMessageByTimestamp remote channel timestamp w)) !! k
             = messageCache w !! k)
  /\ (forall e w',
         findMessageByTimestamp remote channel timestamp w = (Throw e, w') ->
         messageCache w' !! cacheKey_num channel timestamp = None
         /\ trace w' = trace w ++ search_events channel timestamp 3
         /\ exists reason, e = Error ("Failed to find message: " +:+ reason)).
Proof.
  destruct (findMessageByTimestamp_effects remote channel timestamp w)
    as (r & w1 & n & Hrun & Hn & Htr & Hnow & Hfr & Hres).
  rewrite Hrun. cbn [snd]. split; [exact Hfr |].
  intros e w' [= -> <-]. destruct Hres as (Hc & -> & Hreason).
  split; [exact Hc | split; [exact Htr | exact Hreason]].
Qed.

Lemma findMessageByTimestamp_frame_witness :
  exists e w',
    findMessageByTimestamp (member_remote []) "C1" 101 world0 = (Throw e, w')
    /\ messageCache w' !! cacheKey_num "C1" 101 = None
    /\ trace w' = trace world0 ++ search_events "C1" 101 3.
Proof.
  destruct (findMessageByTimestamp (member_remote []) "C1" 101 world0)
    as [[m | e | ] w'] eqn:H; try (vm_compute in H; discriminate).
  exists e, w'. split; [reflexivity |].
  destruct (proj2 (findMessageByTimestamp_frame (member_remote []) "C1" 101 world0)
              e w' H) as (Hc & Htr & _).
  split; assumption.
Defined.

(** A lookup that has returned a message returns the same message when it
    is repeated at once, from the cache: the world does not change, so no
    request goes out. *)
Theorem findMessageByTimestamp_repeat remote channel timestamp w m w' :
  findMessageByTimestamp remote channel timestamp w = (Ok m, w') ->
  findMessageByTimestamp remote channel timestamp w' = (Ok m, w').
Proof.
  intros H.
  destruct (findMessageByTimestamp_ok_cached _ _ _ _ _ _ H) as (t & Hl & Hfresh).
  unfold findMessageByTimestamp. run.
  rewrite (cache_check_fresh _ m t w' Hl Hfresh). reflexivity.
Qed.

Lemma findMessageByTimestamp_repeat_witness :
  exists w',
    findMessageByTimestamp (member_remote [mkMessage "100.0" (Some "a")]) "C1" 101 world0
    = (Ok (mkMessage "100.0" (Some "a")), w')
    /\ findMessageByTimestamp (member_remote [mkMessage "100.0" (Some "a")]) "C1" 101 w'
       = (Ok (mkMessage "100.0" (Some "a")), w').
Proof.
  destruct (findMessageByTimestamp (member_remote [mkMessage "100.0" (Some "a")])
              "C1" 101 world0) as [[m | e | ] w'] eqn:H;
    try (vm_compute in H; discriminate).
  assert (Hm : m = mkMessage "100.0" (Some "a"))
    by (vm_compute in H; congruence).
  subst m. exists w'. split; [reflexivity |].
  apply (findMessageByTimestamp_repeat _ _ _ world0). exact H.
Defined.

(** A first attempt that fails does not end the lookup: after 500 ms the
    query is sent again, and when that reply comes in time with candidates
    (target and timestamps below [2 ^ 33]) the one with the smallest computed
    difference, first among equals, is returned and cached under the target
    key; no candidate is closer to the target in exact terms by more than
    [2 ^ -17] seconds. *)
Theorem findMessageByTimestamp_second_attempt
    remote channel timestamp w data first rest :
  fst (cache_check (cacheKey_num channel timestamp) w) = Ok None ->
  let q := EvRequest (historyQuery channel timestamp) in
  attempt_fails (remote (trace w) (historyQuery channel timestamp)) = true ->
  latency (remote (trace w ++ [q; EvSleep 500]) (historyQuery channel timestamp))
  < MESSAGE_SEARCH_TIMEOUT ->
  settled (remote (trace w ++ [q; EvSleep 500]) (historyQuery channel timestamp))
  = Resolve data ->
  ok data = true ->
  messages data = Some (first :: rest) ->
  Z.abs timestamp < 2 ^ 33 ->
  Forall epoch_sized (first :: rest) ->
  exists i m w',
    findMessageByTimestamp remote channel timestamp w = (Ok m, w')
    /\ first_closest timestamp (first :: rest) i m
    /\ (forall m', m' ∈ first :: rest ->
                   (exactDiff timestamp m <= exactDiff timestamp m' + (1 # 2 ^ 17))%Q)
    /\ trace w' = trace w ++ [q; EvSleep 500; q]
    /\ messageCache w' !! cacheKey_num channel timestamp = Some (mkEntry m (now w')).
Proof.
  intros Hmiss q Hfail Hlat Hset Hok Hmsgs Ht Hsized.
  pose proof (epoch_sized_comparable timestamp (first :: rest) Ht Hsized) as Hfixed.
  destruct (reduce_first_closest timestamp first rest Hfixed) as (i & m & Hred & Hmin).
  unfold findMessageByTimestamp. run.
  destruct (cache_check (cacheKey_num channel timestamp) w) as [r w0] eqn:Hc.
  cbn [fst] in Hmiss. subst r.
  destruct (cache_check_world _ _ _ _ Hc) as [_ Htr].
  rewrite <- Htr in Hfail.
  rewrite (searchLoop_fail_step remote channel timestamp _ w0 Hfail).
  change (MAX_RETRIES <? S MAX_RETRIES - MAX_RETRIES)%nat with false.
  change (S MAX_RETRIES - MAX_RETRIES)%nat with 1%nat.
  change MAX_RETRIES with 2%nat at 1. cbv beta iota.
  cbn [searchLoop]. run.
  match goal with |- context [searchAttempt remote channel timestamp ?w1] =>
    assert (Htr1 : trace w1 = trace w ++ [q; EvSleep 500])
      by (cbn [trace after_request]; rewrite Htr, <- app_assoc; reflexivity);
    rewrite (searchAttempt_success remote channel timestamp w1 data first rest m)
  end; try assumption.
  - exists i, m. eexists. split; [reflexivity |]. split; [exact Hmin |].
    split; [exact (closest_within_rounding timestamp _ i m Ht Hsized Hmin) |].
    cbn [trace messageCache now after_request]. split.
    + rewrite Htr, <- !app_assoc. reflexivity.
    + apply lookup_insert_eq.
  - rewrite Htr1. exact Hlat.
  - rewrite Htr1. exact Hset.
Qed.

Lemma findMessageByTimestamp_second_attempt_witness :
  let a := mkMessage "103.0" (Some "a") in
  let b := mkMessage "100.0" (Some "b") in
  exists i w',
    findMessageByTimestamp (flaky_remote [a; b]) "C1" 101 world0 = (Ok b, w')
    /\ first_closest 101 [a; b] i b
    /\ (forall m', m' ∈ [a; b] ->
                   (exactDiff 101 b <= exactDiff 101 m' + (1 # 2 ^ 17))%Q)
    /\ trace w' = trace world0 ++ [EvRequest (historyQuery "C1" 101); EvSleep 500;
                                   EvRequest (historyQuery "C1" 101)]
    /\ messageCache w' !! cacheKey_num "C1" 101 = Some (mkEntry b (now w')).
Proof.
  intros a b.
  destruct (findMessageByTimestamp_second_attempt (flaky_remote [a; b]) "C1" 101 world0
              (mkData true None None None (Some [a; b])) a [b])
    as (i & m & w' & Hrun & Hrest).
  - vm_compute. reflexivity.
  - reflexivity.
  - vm_compute. reflexivity.
  - reflexivity.
  - reflexivity.
  - reflexivity.
  - vm_compute. reflexivity.
  - repeat first [ apply List.Forall_cons | apply List.Forall_nil
                 | (eexists; split; [vm_compute; reflexivity
                                    | split; vm_compute; congruence]) ].
  - assert (Hm : m = b).
    { pose proof (f_equal fst Hrun) as Hfst. vm_compute in Hfst.
      injection Hfst as Hm. symmetry. exact Hm. }
    subst m. exists i, w'. split; [exact Hrun | exact Hrest].
Defined.

(* ===================================================================== *)
(** ** Listing (lines 178-212)                                            *)
(* ===================================================================== *)

(** The [forEach] of [getMessages]: clock and trace stay, every listed
    message leaves an entry under [channel:ts] stamped with the clock, and
    no other key changes.  When two listed messages share a [ts] the later
    one wins. *)
Lemma cache_all_run channel msgs :
  forall w,
  exists c,
    cache_all channel msgs w = (Ok tt, mkWorld c (now w) (trace w))
    /\ (forall key,
           (forall msg, msg ∈ msgs -> key <> cacheKey_ts channel (ts msg)) ->
           c !! key = messageCache w !! key)
    /\ (forall msg, msg ∈ msgs ->
           exists msg', msg' ∈ msgs /\ ts msg' = ts msg
                        /\ c !! cacheKey_ts channel (ts msg)
                           = Some (mkEntry msg' (now w))).
Proof.
  induction msgs as [| msg rest IH]; intros w.
  - exists (messageCache w). split; [destruct w; reflexivity |].
    split; [reflexivity |]. intros msg Hin. inversion Hin.
  - cbn [cache_all]. unfold Date_now, cache_set. run.
    set (w1 := mkWorld (<[cacheKey_ts channel (ts msg) := mkEntry msg (now w)]>
                          (messageCache w)) (now w) (trace w)).
    destruct (IH w1) as (c & Hrun & Hother & Hlisted).
    exists c. split; [exact Hrun |]. cbn [now messageCache w1] in Hother, Hlisted.
    split.
    + intros key Hkey. rewrite Hother.
      * apply lookup_insert_ne. intros Heq. apply (Hkey msg); [left | congruence].
      * intros m Hm. apply Hkey. right. exact Hm.
    + intros m Hm.
      destruct (decide (ts m ∈ map ts rest)) as [Hin | Hnin].
      * apply list_elem_of_fmap in Hin as (m' & Hts & Hm').
        destruct (Hlisted m' Hm') as (m'' & Hm'' & Hts'' & Hl).
        exists m''. split; [right; exact Hm'' |].
        split; [congruence |]. rewrite Hts. exact Hl.
      * assert (Hhead : m = msg).
        { apply elem_of_cons in Hm as [-> | Hm]; [reflexivity |].
          exfalso. apply Hnin. apply list_elem_of_fmap. exists m. split; trivial. }
        subst m. exists msg. split; [left |]. split; [reflexivity |].
        rewrite Hother; [apply lookup_insert_eq |].
        intros m' Hm' Heq. apply Hnin. apply list_elem_of_fmap. exists m'.
        split; [| exact Hm'].
        unfold cacheKey_ts in Heq.
        apply String.app_inj in Heq. apply String.app_inj in Heq. exact Heq.
Qed.

Lemma getMessages_success remote channel w inChannel w1 lat data msgs :
  ensureBotInChannel remote channel w = (Ok inChannel, w1) ->
  remote (trace w1) (ConversationsHistory channel None None true 10)
  = mkReply lat (Resolve data) ->
  ok data = true ->
  messages data = Some msgs ->
  exists w',
    getMessages remote channel w = (Ok (mkResult true data None), w')
    /\ trace w'
       = trace w1 ++ [EvRequest (ConversationsHistory channel None None true 10)]
    /\ now w' = now w1 + lat
    /\ (forall key,
           (forall msg, msg ∈ msgs -> key <> cacheKey_ts channel (ts msg)) ->
           messageCache w' !! key = messageCache w !! key)
    /\ (forall msg, msg ∈ msgs ->
           exists msg', msg' ∈ msgs /\ ts msg' = ts msg
                        /\ messageCache w' !! cacheKey_ts channel (ts msg)
                           = Some (mkEntry msg' (now w'))).
Proof.
  intros He Hr Hok Hmsgs.
  pose proof (keeps_cache_ensureBotInChannel remote channel w) as Hkeep.
  rewrite He in Hkeep. cbn [snd] in Hkeep.
  unfold getMessages. run. rewrite He. unfold axios. rewrite Hr.
  cbn [settled latency]. rewrite Hok, Hmsgs. cbn [negb].
  destruct (cache_all_run channel msgs
              (after_request w1 (ConversationsHistory channel None None true 10) lat))
    as (c & Hrun & Hother & Hlisted).
  rewrite Hrun. eexists. split; [reflexivity |].
  cbn [trace now messageCache after_request] in *.
  split; [reflexivity |]. split; [reflexivity |].
  split; [| exact Hlisted].
  intros key Hkey. rewrite (Hother key Hkey). rewrite Hkeep. reflexivity.
Qed.

(** A successful listing makes one history request for the latest ten
    messages after the guard, returns the reply, and seeds the cache: every
    listed message has an entry under [channel:ts], stamped with the clock
    at the reply and holding a listed message of that [ts] (itself when no
    other listed message shares its [ts]); every other key is as before. *)
Theorem getMessages_seeds_cache remote channel w inChannel w1 lat data msgs :
  ensureBotInChannel remote channel w = (Ok inChannel, w1) ->
  remote (trace w1) (ConversationsHistory channel None None true 10)
  = mkReply lat (Resolve data) ->
  ok data = true ->
  messages data = Some msgs ->
  exists w',
    getMessages remote channel w = (Ok (mkResult true data None), w')
    /\ trace w'
       = trace w1 ++ [EvRequest (ConversationsHistory channel None None true 10)]
    /\ now w' = now w1 + lat
    /\ (forall key,
           (forall msg, msg ∈ msgs -> key <> cacheKey_ts channel (ts msg)) ->
           messageCache w' !! key = messageCache w !! key)
    /\ (forall msg, msg ∈ msgs ->
           exists msg', msg' ∈ msgs /\ ts msg' = ts msg
                        /\ messageCache w' !! cacheKey_ts channel (ts msg)
                           = Some (mkEntry msg' (now w'))).
Proof. apply getMessages_success. Qed.

Lemma getMessages_seeds_cache_witness :
  exists w',
    getMessages (member_remote [mkMessage "100.000100" (Some "a")]) "C1" world0
    = (Ok (mkResult true
             (mkData true None None None (Some [mkMessage "100.000100" (Some "a")]))
             None), w')
    /\ messageCache w' !! "C1:100.000100"
       = Some (mkEntry (mkMessage "100.000100" (Some "a")) 300).
Proof.
  destruct (getMessages_seeds_cache
              (member_remote [mkMessage "100.000100" (Some "a")]) "C1" world0 true
              (mkWorld ∅ 200 [EvRequest AuthTest; EvRequest (ConversationsMembers "C1")])
              100
              (mkData true None None None (Some [mkMessage "100.000100" (Some "a")]))
              [mkMessage "100.000100" (Some "a")])
    as (w' & Hrun & _ & Hnow & _ & Hlisted).
  - vm_compute. reflexivity.
  - reflexivity.
  - reflexivity.
  - reflexivity.
  - exists w'. split; [exact Hrun |].
    destruct (Hlisted (mkMessage "100.000100" (Some "a"))) as (m' & Hm' & _ & Hl);
      [left |].
    apply list_elem_of_singleton in Hm'. subst m'.
    rewrite Hnow in Hl. exact Hl.
Defined.

(** The entries seeded by a listing are not the ones a lookup reads: when
    no listed [ts] is the decimal form of the target, the key of the lookup
    is as it was before the listing, so a lookup that would have gone to the
    remote platform before the listing still does after it. *)
Theorem getMessages_leaves_lookup_key
    remote channel timestamp w inChannel w1 lat data msgs :
  ensureBotInChannel remote channel w = (Ok inChannel, w1) ->
  remote (trace w1) (ConversationsHistory channel None None true 10)
  = mkReply lat (Resolve data) ->
  ok data = true ->
  messages data = Some msgs ->
  (forall msg, msg ∈ msgs -> ts msg <> pretty timestamp) ->
  let w' := snd (getMessages remote channel w) in
  messageCache w' !! cacheKey_num channel timestamp
  = messageCache w !! cacheKey_num channel timestamp
  /\ (messageCache w !! cacheKey_num channel timestamp = None ->
      fst (cache_check (cacheKey_num channel timestamp) w') = Ok None).
Proof.
  intros He Hr Hok Hmsgs Hts w'.
  destruct (getMessages_success remote channel w inChannel w1 lat data msgs
              He Hr Hok Hmsgs) as (w'' & Hrun & _ & _ & Hother & _).
  subst w'. rewrite Hrun. cbn [snd].
  assert (Hl : messageCache w'' !! cacheKey_num channel timestamp
               = messageCache w !! cacheKey_num channel timestamp).
  { apply Hother. intros msg Hm Heq. apply (Hts msg Hm).
    symmetry in Heq. exact (cacheKey_ts_num _ _ _ Heq). }
  split; [exact Hl |].
  intros Hnone. rewrite cache_check_absent; [reflexivity |].
  rewrite Hl. exact Hnone.
Qed.

Lemma getMessages_leaves_lookup_key_witness :
  fst (cache_check (cacheKey_num "C1" 100)
         (snd (getMessages (member_remote [mkMessage "100.000100" (Some "a")])
                 "C1" world0))) = Ok None.
Proof.
  apply (getMessages_leaves_lookup_key
           (member_remote [mkMessage "100.000100" (Some "a")]) "C1" 100 world0 true
           (mkWorld ∅ 200 [EvRequest AuthTest; EvRequest (ConversationsMembers "C1")])
           100
           (mkData true None None None (Some [mkMessage "100.000100" (Some "a")]))
           [mkMessage "100.000100" (Some "a")]).
  - vm_compute. reflexivity.
  - reflexivity.
  - reflexivity.
  - reflexivity.
  - intros msg Hm. apply list_elem_of_singleton in Hm. subst msg.
    vm_compute. discriminate.
  - reflexivity.
Defined.

(* ===================================================================== *)
(** ** How the operations fail (lines 208-211, 234-236, 268-270, 310-312,
       347-349)                                                           *)
(* ===================================================================== *)

(** The guard runs before the date is read.  When the guard has passed and
    the date or time does not parse, [scheduleMessage], [editMessage] and
    [deleteMessage] fail with their own prefix before the parse error, in
    the world the guard left: the membership requests (and a join, if one
    was needed) have been made, no history or write request follows. *)
Theorem unparsable_date_fails_after_guard
    LocalTZA remote channel text newText date time w inChannel w1 e :
  ensureBotInChannel remote channel w = (Ok inChannel, w1) ->
  parseDateTime LocalTZA date time = Throw e ->
  scheduleMessage LocalTZA remote channel text date time w
  = (Throw (Error ("Schedule message failed: " +:+ message e)), w1)
  /\ editMessage LocalTZA remote channel date time newText w
     = (Throw (Error ("Edit message failed: " +:+ message e)), w1)
  /\ deleteMessage LocalTZA remote channel date time w
     = (Throw (Error ("Delete message failed: " +:+ message e)), w1).
Proof.
  intros He Hp. unfold scheduleMessage, editMessage, deleteMessage. run.
  rewrite He, Hp. refine (conj eq_refl (conj eq_refl eq_refl)).
Qed.

Lemma unparsable_date_fails_after_guard_witness :
  deleteMessage (fixedZone 0) (stranger_remote []) "C1" "00/01/2024" "14:30" world0
  = (Throw (Error "Delete message failed: Invalid date/time format: Invalid date format. Use dd/mm/yyyy"),
     mkWorld ∅ 300 [EvRequest AuthTest; EvRequest (ConversationsMembers "C1");
                    EvRequest (ConversationsJoin "C1")]).
Proof.
  apply (unparsable_date_fails_after_guard (fixedZone 0) (stranger_remote []) "C1"
           None None "00/01/2024" "14:30" world0 true
           (mkWorld ∅ 300 [EvRequest AuthTest; EvRequest (ConversationsMembers "C1");
                           EvRequest (ConversationsJoin "C1")])
           (Error "Invalid date/time format: Invalid date format. Use dd/mm/yyyy")).
  - vm_compute. reflexivity.
  - vm_compute. reflexivity.
Defined.

Lemma try_catch_wraps {A} (body : M A) (wrap : JsError -> string) w e w' :
  try_catch body (fun error => throw (Error (wrap error))) w = (Throw e, w') ->
  exists inner, e = Error (wrap inner).
Proof.
  unfold try_catch, throw. destruct (body w) as [[a | e0 | ] w0]; intros [= <- <-].
  exists e0. reflexivity.
Qed.

(** No error leaves an operation as it was thrown inside: whatever fails,
    the guard, the date, the lookup or the remote call, the error that comes
    out is a plain [Error] whose message starts with the prefix of the
    operation and which carries no response body. *)
Theorem operations_wrap_every_error
    LocalTZA remote channel text newText date time w e w' :
  (getMessages remote channel w = (Throw e, w') ->
   exists reason, e = Error ("Retrieve messages failed: " +:+ reason))
  /\ (sendMessage remote channel text w = (Throw e, w') ->
      exists reason, e = Error ("Send message failed: " +:+ reason))
  /\ (scheduleMessage LocalTZA remote channel text date time w = (Throw e, w') ->
      exists reason, e = Error ("Schedule message failed: " +:+ reason))
  /\ (editMessage LocalTZA remote channel date time newText w = (Throw e, w') ->
      exists reason, e = Error ("Edit message failed: " +:+ reason))
  /\ (deleteMessage LocalTZA remote channel date time w = (Throw e, w') ->
      exists reason, e = Error ("Delete message failed: " +:+ reason)).
Proof.
  refine (conj _ (conj _ (conj _ (conj _ _)))); intros H;
    apply try_catch_wraps in H as [inner ->]; eexists; reflexivity.
Qed.

Lemma operations_wrap_every_error_witness :
  exists reason,
    Error "Send message failed: Invalid channel ID format. Must start with C (public), G (private), or D (DM)"
    = Error ("Send message failed: " +:+ reason).
Proof.
  apply (proj1 (proj2
           (operations_wrap_every_error (fixedZone 0) (member_remote []) "#test"
              (Some "hi") None "" "" world0
              (Error "Send message failed: Invalid channel ID format. Must start with C (public), G (private), or D (DM)")
              world0))).
  vm_compute. reflexivity.
Defined.

(** What a refused post tells the caller.  After the guard, a reply with
    [ok: false] makes [sendMessage] throw the platform's error code (or
    "Failed to send message" when the reply names none); a rejected call
    makes it throw the error code of the response body when there is one
    and the client's message otherwise.  [scheduleMessage] differs on a
    rejected call: it reports the client's message even when the response
    body names an error code. *)
Theorem refused_post_reason LocalTZA remote channel text date time w inChannel w1 :
  ensureBotInChannel remote channel w = (Ok inChannel, w1) ->
  let post := ChatPostMessage channel (or_default text "Hello from InternshipBot!") in
  (forall lat data,
      remote (trace w1) post = mkReply lat (Resolve data) -> ok data = false ->
      sendMessage remote channel text w
      = (Throw (Error ("Send message failed: "
                       +:+ or_default (error data) "Failed to send message")),
         after_request w1 post lat))
  /\ (forall lat e,
         remote (trace w1) post = mkReply lat (Reject e) ->
         sendMessage remote channel text w
         = (Throw (Error ("Send message failed: " +:+ response_error_or_message e)),
            after_request w1 post lat))
  /\ (forall postAt lat e,
         parseDateTime LocalTZA date time = Ok postAt ->
         remote (trace w1)
           (ChatScheduleMessage channel
              (or_default text "Scheduled message from InternshipBot!") postAt)
         = mkReply lat (Reject e) ->
         scheduleMessage LocalTZA remote channel text date time w
         = (Throw (Error ("Schedule message failed: " +:+ message e)),
            after_request w1
              (ChatScheduleMessage channel
                 (or_default text "Scheduled message from InternshipBot!") postAt)
              lat)).
Proof.
  intros He post. refine (conj _ (conj _ _)).
  - intros lat data Hr Hok. unfold sendMessage. run. rewrite He.
    unfold axios. fold post. rewrite Hr. cbn [settled latency]. rewrite Hok.
    reflexivity.
  - intros lat e Hr. unfold sendMessage. run. rewrite He.
    unfold axios. fold post. rewrite Hr. reflexivity.
  - intros postAt lat e Hp Hr. unfold scheduleMessage. run. rewrite He, Hp.
    unfold axios. rewrite Hr. reflexivity.
Qed.

Lemma refused_post_reason_witness :
  let remote : list Event -> Request -> Reply :=
    fun tr r =>
      match r with
      | ChatPostMessage _ _ =>
          mkReply 100 (Reject (mkError "Request failed with status code 429"
                                       (Some "ratelimited")))
      | _ => member_remote [] tr r
      end in
  sendMessage remote "C1" (Some "hi") world0
  = (Throw (Error "Send message failed: ratelimited"),
     mkWorld ∅ 300 [EvRequest AuthTest; EvRequest (ConversationsMembers "C1");
                    EvRequest (ChatPostMessage "C1" "hi")]).
Proof.
  intros remote.
  apply (proj1 (proj2
           (refused_post_reason (fixedZone 0) remote "C1" (Some "hi") "" "" world0 true
              (mkWorld ∅ 200 [EvRequest AuthTest; EvRequest (ConversationsMembers "C1")])
              ltac:(vm_compute; reflexivity)))
           100 (mkError "Request failed with status code 429" (Some "ratelimited"))).
  reflexivity.
Defined.

(* ===================================================================== *)
(** ** The two cache keys (lines 111, 297, 337)                           *)
(* ===================================================================== *)

(** What a successful [editMessage] leaves behind.  The entry it writes is
    the one under [channel:ts] of the message; the entry that the lookup
    keeps under the target key is another one as soon as [ts] is not the
    decimal form of the target, and it still holds the message as it was
    found.  A later lookup of the same target, within the time to live, is
    answered from it with the message as it was before the edit, and no
    request goes out. *)
Theorem editMessage_keeps_target_entry
    LocalTZA remote channel date time newText w r w' :
  editMessage LocalTZA remote channel date time newText w = (Ok r, w') ->
  exists timestamp message t,
    parseDateTime LocalTZA date time = Ok timestamp
    /\ messageCache w' !! cacheKey_ts channel (ts message)
       = Some (mkEntry (with_text message newText) (now w'))
    /\ (ts message <> pretty timestamp ->
        messageCache w' !! cacheKey_num channel timestamp = Some (mkEntry message t)
        /\ forall w'',
            messageCache w'' = messageCache w' ->
            now w'' - t < CACHE_TTL ->
            findMessageByTimestamp remote channel timestamp w'' = (Ok message, w'')).
Proof.
  unfold editMessage. run. intros H.
  destruct (ensureBotInChannel remote channel w) as [[inChannel | e | ] w1] eqn:He;
    try discriminate.
  destruct (parseDateTime LocalTZA date time) as [timestamp | e | ] eqn:Hp;
    try discriminate.
  destruct (findMessageByTimestamp remote channel timestamp w1)
    as [[message | e | ] w2] eqn:Hf; try discriminate.
  unfold axios in H.
  destruct (settled (remote (trace w2) _)) as [data | e]; try discriminate.
  destruct (ok data); cbn [negb] in H; try discriminate.
  unfold Date_now, cache_set in H. injection H as <- <-.
  destruct (findMessageByTimestamp_ok_cached _ _ _ _ _ _ Hf) as (t & Hl & Hfresh).
  exists timestamp, message, t. cbn [trace messageCache now after_request].
  refine (conj eq_refl (conj _ _)).
  - apply lookup_insert_eq.
  - intros Hne.
    assert (Hk : cacheKey_ts channel (ts message) <> cacheKey_num channel timestamp).
    { intros Hk. apply Hne. eapply cacheKey_ts_num. exact Hk. }
    match goal with |- ?c !! _ = _ /\ _ =>
      assert (Hkeep : c !! cacheKey_num channel timestamp = Some (mkEntry message t))
        by (rewrite lookup_insert_ne by exact Hk; exact Hl)
    end.
    split; [exact Hkeep |].
    intros w'' Hc Ht. unfold findMessageByTimestamp. run.
    rewrite (cache_check_fresh _ message t w''); [reflexivity | | exact Ht].
    rewrite Hc. exact Hkeep.
Qed.

Lemma editMessage_keeps_target_entry_witness :
  exists r w',
    editMessage (fixedZone 0)
      (member_remote [mkMessage "1704033000.000100" (Some "old")])
      "C1" "31/12/2023" "14:30" (Some "new") world0 = (Ok r, w')
    /\ findMessageByTimestamp
         (member_remote [mkMessage "1704033000.000100" (Some "old")])
         "C1" 1704033000 w'
       = (Ok (mkMessage "1704033000.000100" (Some "old")), w').
Proof.
  destruct (editMessage (fixedZone 0)
              (member_remote [mkMessage "1704033000.000100" (Some "old")])
              "C1" "31/12/2023" "14:30" (Some "new") world0) as [[r | e | ] w'] eqn:H;
    try (vm_compute in H; discriminate).
  exists r, w'. split; [reflexivity |].
  destruct (editMessage_keeps_target_entry _ _ _ _ _ _ _ _ _ H)
    as (timestamp & message & t & Hp & Hts & Hstale).
  vm_compute in Hp. injection Hp as <-.
  vm_compute in H. injection H as <- <-.
  destruct (decide (ts message = pretty 1704033000)) as [Heq | Hneq].
  - exfalso. unfold cacheKey_ts in Hts. rewrite Heq in Hts.
    vm_compute in Hts. discriminate.
  - destruct (Hstale Hneq) as [Hl Hfind].
    vm_compute in Hl. injection Hl as <- <-.
    apply Hfind; [reflexivity | vm_compute; reflexivity].
Defined.

Lemma deleteMessage_keeps_target_entry_witness :
  exists r w',
    deleteMessage (fixedZone 0)
      (member_remote [mkMessage "1704033000.000100" (Some "old")])
      "C1" "31/12/2023" "14:30" world0 = (Ok r, w')
    /\ last (trace w') = Some (EvRequest (ChatDelete "C1" "1704033000.000100"))
    /\ findMessageByTimestamp
         (member_remote [mkMessage "1704033000.000100" (Some "old")])
         "C1" 1704033000 w'
       = (Ok (mkMessage "1704033000.000100" (Some "old")), w').
Proof.
  destruct (deleteMessage (fixedZone 0)
              (member_remote [mkMessage "1704033000.000100" (Some "old")])
              "C1" "31/12/2023" "14:30" world0) as [[r | e | ] w'] eqn:H;
    try (vm_compute in H; discriminate).
  exists r, w'. split; [reflexivity |].
  destruct (deleteMessage_keeps_target_entry _ _ _ _ _ _ _ _ H)
    as (timestamp & message & t & Hp & Hlast & Hgone & Hstale).
  vm_compute in Hp. injection Hp as <-.
  vm_compute in H. injection H as <- <-.
  cbn [trace last] in Hlast. injection Hlast as Hts.
  split; [vm_compute; reflexivity |].
  destruct (Hstale ltac:(rewrite <- Hts; vm_compute; discriminate)) as [Hl Hfind].
  vm_compute in Hl. injection Hl as <- <-.
  apply Hfind; [reflexivity | vm_compute; reflexivity].
Defined.

(* ===================================================================== *)
(** ** The routes (src/server.js, lines 9-69)                             *)
(* ===================================================================== *)

Lemma respond_cases (op : M OpResult) w :
  respond op w
  = match op w with
    | (Ok result, w') => (Ok (mkResponse 200 (JsonResult result)), w')
    | (Throw e, w') => (Ok (mkResponse 500 (JsonError (message e))), w')
    | (Beyond, w') => (Beyond, w')
    end.
Proof. unfold respond. run. destruct (op w) as [[r | e | ] w']; reflexivity. Qed.

(** A route that checks its fields and then runs an operation. *)
Lemma route_cases (miss : bool) msg (op : M OpResult) w :
  let route := if miss then bad_request msg else respond op in
  (forall e w', route w <> (Throw e, w'))
  /\ forall resp w',
       route w = (Ok resp, w') ->
       (status resp = 400 <-> miss = true)
       /\ (miss = true -> w' = w /\ json resp = JsonError msg)
       /\ (status resp = 200 <-> exists result, op w = (Ok result, w')
                                                /\ miss = false
                                                /\ json resp = JsonResult result)
       /\ (status resp = 500 <-> exists e, op w = (Throw e, w')
                                           /\ miss = false
                                           /\ json resp = JsonError (message e)).
Proof.
  intros route. subst route. destruct miss.
  - split; [intros e w'; discriminate |].
    intros resp w' [= <- <-]. cbn [status json].
    split; [split; reflexivity |]. split; [split; reflexivity |].
    split; (split; [discriminate | intros (x & _ & Hm & _); discriminate]).
  - rewrite respond_cases.
    destruct (op w) as [[r | e | ] w1].
    + split; [intros e w'; discriminate |].
      intros resp w' [= <- <-]. cbn [status json].
      split; [split; discriminate |]. split; [discriminate |].
      split.
      * split; [intros _; exists r; repeat split | reflexivity].
      * split; [discriminate | intros (x & Hx & _); discriminate].
    + split; [intros e' w'; discriminate |].
      intros resp w' [= <- <-]. cbn [status json].
      split; [split; discriminate |]. split; [discriminate |].
      split.
      * split; [discriminate | intros (x & Hx & _); discriminate].
      * split; [intros _; exists e; repeat split | reflexivity].
    + split; [intros e w'; discriminate |]. intros resp w'. discriminate.
Qed.

(** What the routes answer.  Given a body object, a route does not throw;
    it answers 400 exactly when one of its required fields is absent or
    empty, and then nothing has been asked of the remote platform: the world
    is unchanged, whatever the channel.  Otherwise it answers 200 with the
    result exactly when the operation returned one, and 500 with the message
    of the error exactly when the operation threw.  When a body-reading
    route finds [req.body] undefined, it throws the [TypeError] of the
    destructuring before its [try], in an unchanged world, and sends no
    answer; [/messages] reads the query and has no such case. *)
Theorem routes_validate_then_report LocalTZA remote b w :
  let answers (miss : bool) (msg : string) (op : M OpResult) (route : M HttpResponse) :=
    (forall e w', route w <> (Throw e, w'))
    /\ forall resp w',
         route w = (Ok resp, w') ->
         (status resp = 400 <-> miss = true)
         /\ (miss = true -> w' = w /\ json resp = JsonError msg)
         /\ (status resp = 200 <-> exists result, op w = (Ok result, w')
                                                  /\ miss = false
                                                  /\ json resp = JsonResult result)
         /\ (status resp = 500 <-> exists e, op w = (Throw e, w')
                                             /\ miss = false
                                             /\ json resp = JsonError (message e)) in
  answers (missing (body_text b)) "Text is required"
    (sendMessage remote (channel_or_default b) (body_text b))
    (post_send remote (Some b))
  /\ answers (missing (body_text b) || missing (body_date b) || missing (body_time b))
       "Text, date and time are required"
       (scheduleMessage LocalTZA remote (channel_or_default b) (body_text b)
          (present (body_date b)) (present (body_time b)))
       (post_schedule LocalTZA remote (Some b))
  /\ answers false "" (getMessages remote (channel_or_default b))
       (get_messages remote b)
  /\ answers (missing (body_date b) || missing (body_time b) || missing (body_newText b))
       "Date, time and new text are required"
       (editMessage LocalTZA remote (channel_or_default b)
          (present (body_date b)) (present (body_time b)) (body_newText b))
       (post_edit LocalTZA remote (Some b))
  /\ answers (missing (body_date b) || missing (body_time b))
       "Date and time are required"
       (deleteMessage LocalTZA remote (channel_or_default b)
          (present (body_date b)) (present (body_time b)))
       (delete_delete LocalTZA remote (Some b))
  /\ post_send remote None w = (Throw (undefined_body "text"), w)
  /\ post_schedule LocalTZA remote None w = (Throw (undefined_body "text"), w)
  /\ post_edit LocalTZA remote None w = (Throw (undefined_body "date"), w)
  /\ delete_delete LocalTZA remote None w = (Throw (undefined_body "date"), w).
Proof.
  intros answers. subst answers. cbv beta.
  refine (conj _ (conj _ (conj _ (conj _ (conj _
            (conj eq_refl (conj eq_refl (conj eq_refl eq_refl)))))))).
  - apply (route_cases (missing (body_text b))).
  - apply (route_cases (missing (body_text b) || missing (body_date b)
                        || missing (body_time b))).
  - apply (route_cases false).
  - apply (route_cases (missing (body_date b) || missing (body_time b)
                        || missing (body_newText b))).
  - apply (route_cases (missing (body_date b) || missing (body_time b))).
Qed.

Lemma routes_validate_then_report_witness :
  exists resp w',
    post_edit (fixedZone 0) (member_remote [])
      (Some (mkBody None (Some "C1") (Some "31/12/2023") None (Some "x"))) world0
    = (Ok resp, w')
    /\ status resp = 400 /\ w' = world0.
Proof.
  exists (mkResponse 400 (JsonError "Date, time and new text are required")), world0.
  split; [reflexivity |].
  destruct (proj1 (proj2 (proj2 (proj2
              (routes_validate_then_report (fixedZone 0) (member_remote [])
                 (mkBody None (Some "C1") (Some "31/12/2023") None (Some "x"))
                 world0))))) as [_ Hroute].
  destruct (Hroute (mkResponse 400 (JsonError "Date, time and new text are required"))
              world0 eq_refl) as (H400 & Hsame & _).
  split; [apply H400; reflexivity | apply Hsame; reflexivity].
Defined.

(* ===================================================================== *)
(** ** What parseDateTime reads (lines 25-39)                             *)
(* ===================================================================== *)

Lemma time_seconds_parts timeParts n :
  time_seconds timeParts = Some n ->
  (length timeParts <? 2)%nat || existsb isNaN timeParts = false
  /\ exists h mi s,
       to_num (timeParts !! 0%nat) = Num h
       /\ to_num (timeParts !! 1%nat) = Num mi
       /\ (if falsy_elem (timeParts !! 2%nat) then Num 0
           else to_num (timeParts !! 2%nat)) = Num s
       /\ n = h * 3600 + mi * 60 + s.
Proof.
  unfold time_seconds.
  destruct ((length timeParts <? 2)%nat || existsb isNaN timeParts) eqn:Hchk;
    [discriminate |].
  intros H. split; [reflexivity |].
  destruct timeParts as [| [h |] [| [mi |] rest]]; try discriminate.
  injection H as <-.
  destruct rest as [| [s |] rest].
  - exists h, mi, 0. repeat split; reflexivity.
  - exists h, mi, s. cbn [lookup list_lookup falsy_elem falsy to_num default]. unfold id.
    repeat split; try reflexivity.
    destruct (Z.eqb_spec s 0) as [-> | _]; reflexivity.
  - cbn in Hchk. discriminate.
Qed.

(** With the strings split and read, the [try] block is a function of the
    first three parts of the date and of the seconds since midnight. *)
Lemma parseDateTime_try_value LocalTZA dateStr timeStr dateParts timeParts n :
  dateStr <> EmptyString -> timeStr <> EmptyString ->
  mapM Number_ (split "/" dateStr) = Some dateParts ->
  mapM Number_ (split ":" timeStr) = Some timeParts ->
  time_seconds timeParts = Some n ->
  parseDateTime_try LocalTZA dateStr timeStr
  = if falsy_elem (take 3 dateParts !! 0%nat)
       || falsy_elem (take 3 dateParts !! 1%nat)
       || falsy_elem (take 3 dateParts !! 2%nat)
    then Throw (Error "Invalid date format. Use dd/mm/yyyy")
    else match TimeClip
                 (UTC LocalTZA
                    (MakeDate
                       (MakeDay (MakeFullYear (to_num (take 3 dateParts !! 2%nat)))
                                (minus_one (to_num (take 3 dateParts !! 1%nat)))
                                (to_num (take 3 dateParts !! 0%nat)))
                       (Num (n * 1000)))) with
         | NaN => Throw (Error "Invalid date or time values")
         | Num t => Ok (t / 1000)
         end.
Proof.
  intros Hd Ht Hdp Htp Hn.
  unfold parseDateTime_try.
  rewrite !bool_decide_eq_false_2 by assumption. cbn [orb].
  rewrite Hdp, Htp.
  rewrite !lookup_take_lt by lia.
  destruct (falsy_elem (dateParts !! 0%nat) || falsy_elem (dateParts !! 1%nat)
            || falsy_elem (dateParts !! 2%nat)); [reflexivity |].
  destruct (time_seconds_parts timeParts n Hn)
    as (-> & h & mi & s & -> & -> & -> & ->).
  unfold Date_of_fields.
  replace (MakeTime (Num h) (Num mi) (Num s) (Num 0))
    with (Num ((h * 3600 + mi * 60 + s) * 1000)); [reflexivity |].
  unfold MakeTime, msPerHour, msPerMinute, msPerSecond. f_equal. lia.
Qed.

(** [parseDateTime] reads the first three parts of the date and adds up the
    time: parts of the date after the year are ignored, and hours, minutes
    and seconds are not checked against 24 and 60, so that two inputs with
    the same day, month and year parts and the same number of seconds since
    midnight (23:60 and 24:00, or 14:30 and 14:30:00) give the same
    result. *)
Theorem parseDateTime_reads_totals
    LocalTZA dateStr1 timeStr1 dateStr2 timeStr2 dateParts1 dateParts2
    timeParts1 timeParts2 n :
  dateStr1 <> EmptyString -> timeStr1 <> EmptyString ->
  dateStr2 <> EmptyString -> timeStr2 <> EmptyString ->
  mapM Number_ (split "/" dateStr1) = Some dateParts1 ->
  mapM Number_ (split "/" dateStr2) = Some dateParts2 ->
  mapM Number_ (split ":" timeStr1) = Some timeParts1 ->
  mapM Number_ (split ":" timeStr2) = Some timeParts2 ->
  take 3 dateParts1 = take 3 dateParts2 ->
  time_seconds timeParts1 = Some n ->
  time_seconds timeParts2 = Some n ->
  parseDateTime LocalTZA dateStr1 timeStr1 = parseDateTime LocalTZA dateStr2 timeStr2.
Proof.
  intros Hd1 Ht1 Hd2 Ht2 Hdp1 Hdp2 Htp1 Htp2 Hsame Hn1 Hn2.
  unfold parseDateTime.
  rewrite (parseDateTime_try_value LocalTZA dateStr1 timeStr1 dateParts1 timeParts1 n)
    by assumption.
  rewrite (parseDateTime_try_value LocalTZA dateStr2 timeStr2 dateParts2 timeParts2 n)
    by assumption.
  rewrite Hsame. reflexivity.
Qed.

Lemma parseDateTime_reads_totals_witness :
  parseDateTime (fixedZone 0) "31/12/2023" "23:60"
  = parseDateTime (fixedZone 0) "31/12/2023/7" "24:00:00".
Proof.
  apply (parseDateTime_reads_totals (fixedZone 0)
           "31/12/2023" "23:60" "31/12/2023/7" "24:00:00"
           [Num 31; Num 12; Num 2023] [Num 31; Num 12; Num 2023; Num 7]
           [Num 23; Num 60] [Num 24; Num 0; Num 0] 86400);
    try discriminate; reflexivity.
Defined.

(* ===================================================================== *)
(** ** Scheduling, and writes that do not happen (lines 240-350)          *)
(* ===================================================================== *)

(** A successful [scheduleMessage]: after the guard, the one request is the
    scheduling call, carrying the supplied text and, as [post_at], the epoch
    seconds that [parseDateTime] made of the date and time; the result
    echoes the date and time as they were given. *)
Theorem scheduleMessage_posts_parsed_time
    LocalTZA remote channel text date time w inChannel w1 postAt lat data :
  text <> EmptyString ->
  ensureBotInChannel remote channel w = (Ok inChannel, w1) ->
  parseDateTime LocalTZA date time = Ok postAt ->
  remote (trace w1) (ChatScheduleMessage channel text postAt)
  = mkReply lat (Resolve data) ->
  ok data = true ->
  scheduleMessage LocalTZA remote channel (Some text) date time w
  = (Ok (mkResult true data (Some ("Scheduled for " +:+ date +:+ " at " +:+ time))),
     mkWorld (messageCache w) (now w1 + lat)
       (trace w1 ++ [EvRequest (ChatScheduleMessage channel text postAt)])).
Proof.
  intros Ht He Hp Hr Hok.
  pose proof (keeps_cache_ensureBotInChannel remote channel w) as Hkeep.
  rewrite He in Hkeep. cbn [snd] in Hkeep.
  unfold scheduleMessage. run. rewrite He, Hp.
  unfold or_default. rewrite bool_decide_eq_false_2 by exact Ht.
  unfold axios. rewrite Hr. cbn [settled latency]. rewrite Hok. cbn [negb].
  unfold after_request. rewrite Hkeep. reflexivity.
Qed.

Lemma scheduleMessage_posts_parsed_time_witness :
  scheduleMessage (fixedZone 0) (member_remote []) "C1" (Some "later")
    "31/12/2023" "14:30" world0
  = (Ok (mkResult true (mkData true None None None None)
           (Some "Scheduled for 31/12/2023 at 14:30")),
     mkWorld ∅ 300
       [EvRequest AuthTest; EvRequest (ConversationsMembers "C1");
        EvRequest (ChatScheduleMessage "C1" "later" 1704033000)]).
Proof.
  apply (scheduleMessage_posts_parsed_time (fixedZone 0) (member_remote []) "C1"
           "later" "31/12/2023" "14:30" world0 true
           (mkWorld ∅ 200 [EvRequest AuthTest; EvRequest (ConversationsMembers "C1")])
           1704033000 100 (mkData true None None None None)).
  - discriminate.
  - vm_compute. reflexivity.
  - vm_compute. reflexivity.
  - reflexivity.
  - reflexivity.
Defined.

(** When the lookup fails, [editMessage] and [deleteMessage] stop there:
    they throw their prefix before the lookup's own
    "Failed to find message: ..." in the world the lookup left, three
    history queries after the guard and no update or delete call. *)
Theorem failed_lookup_stops_edit_and_delete
    LocalTZA remote channel date time newText w inChannel w1 timestamp e w2 :
  ensureBotInChannel remote channel w = (Ok inChannel, w1) ->
  parseDateTime LocalTZA date time = Ok timestamp ->
  findMessageByTimestamp remote channel timestamp w1 = (Throw e, w2) ->
  exists reason,
    editMessage LocalTZA remote channel date time newText w
    = (Throw (Error ("Edit message failed: Failed to find message: " +:+ reason)), w2)
    /\ deleteMessage LocalTZA remote channel date time w
       = (Throw (Error ("Delete message failed: Failed to find message: " +:+ reason)),
          w2)
    /\ trace w2 = trace w1 ++ search_events channel timestamp 3.
Proof.
  intros He Hp Hf.
  destruct (findMessageByTimestamp_effects remote channel timestamp w1)
    as (r & w' & n & Hrun & _ & Htr & _ & _ & Hres).
  rewrite Hf in Hrun. injection Hrun as <- <-.
  destruct Hres as (_ & -> & reason & ->).
  exists reason. unfold editMessage, deleteMessage. run. rewrite He, Hp, Hf.
  refine (conj eq_refl (conj eq_refl Htr)).
Qed.

Lemma failed_lookup_stops_edit_and_delete_witness :
  exists reason w2,
    deleteMessage (fixedZone 0) (member_remote []) "C1" "31/12/2023" "14:30" world0
    = (Throw (Error ("Delete message failed: Failed to find message: " +:+ reason)), w2)
    /\ trace w2
       = [EvRequest AuthTest; EvRequest (ConversationsMembers "C1")]
         ++ search_events "C1" 1704033000 3.
Proof.
  destruct (findMessageByTimestamp (member_remote []) "C1" 1704033000
              (mkWorld ∅ 200 [EvRequest AuthTest; EvRequest (ConversationsMembers "C1")]))
    as [[m | e | ] w2] eqn:Hf; try (vm_compute in Hf; discriminate).
  destruct (failed_lookup_stops_edit_and_delete (fixedZone 0) (member_remote []) "C1"
              "31/12/2023" "14:30" None world0 true
              (mkWorld ∅ 200 [EvRequest AuthTest; EvRequest (ConversationsMembers "C1")])
              1704033000 e w2) as (reason & _ & Hdel & Htr).
  - vm_compute. reflexivity.
  - vm_compute. reflexivity.
  - exact Hf.
  - exists reason, w2. split; [exact Hdel | exact Htr].
Defined.

(** The cache follows the remote platform, never the other way round: when
    the update or delete call is refused (a reply with [ok: false], or a
    rejected call), [editMessage] and [deleteMessage] throw and leave the
    cache as the lookup left it. *)
Theorem refused_write_keeps_cache
    LocalTZA remote channel date time newText w inChannel w1 timestamp message w2 :
  ensureBotInChannel remote channel w = (Ok inChannel, w1) ->
  parseDateTime LocalTZA date time = Ok timestamp ->
  findMessageByTimestamp remote channel timestamp w1 = (Ok message, w2) ->
  let refused (r : Request) :=
    match settled (remote (trace w2) r) with
    | Resolve data => ok data = false
    | Reject _ => True
    end in
  (refused (ChatUpdate channel (ts message)
              (or_default newText "Updated message from InternshipBot!")) ->
   exists e w',
     editMessage LocalTZA remote channel date time newText w = (Throw e, w')
     /\ messageCache w' = messageCache w2)
  /\ (refused (ChatDelete channel (ts message)) ->
      exists e w',
        deleteMessage LocalTZA remote channel date time w = (Throw e, w')
        /\ messageCache w' = messageCache w2).
Proof.
  intros He Hp Hf refused. subst refused. cbv beta.
  split; intros Href; unfold editMessage, deleteMessage; run;
    rewrite He, Hp, Hf; unfold axios;
    destruct (settled (remote (trace w2) _)) as [data | e];
    try rewrite Href; eexists _, _; split; reflexivity.
Qed.

Lemma refused_write_keeps_cache_witness :
  let remote : list Event -> Request -> Reply :=
    fun tr r =>
      match r with
      | ChatDelete _ _ =>
          mkReply 100 (Resolve (mkData false (Some "cant_delete_message") None None None))
      | _ => member_remote [mkMessage "1704033000.000100" (Some "old")] tr r
      end in
  exists w',
    deleteMessage (fixedZone 0) remote "C1" "31/12/2023" "14:30" world0
    = (Throw (Error "Delete message failed: cant_delete_message"), w')
    /\ messageCache w'
       = {["C1:1704033000" := mkEntry (mkMessage "1704033000.000100" (Some "old")) 300]}.
Proof.
  intros remote.
  destruct (proj2 (refused_write_keeps_cache (fixedZone 0) remote "C1"
                     "31/12/2023" "14:30" None world0 true
                     (mkWorld ∅ 200
                        [EvRequest AuthTest; EvRequest (ConversationsMembers "C1")])
                     1704033000 (mkMessage "1704033000.000100" (Some "old"))
                     (mkWorld
                        {["C1:1704033000" :=
                            mkEntry (mkMessage "1704033000.000100" (Some "old")) 300]}
                        300
                        [EvRequest AuthTest; EvRequest (ConversationsMembers "C1");
                         EvRequest (historyQuery "C1" 1704033000)])
                     ltac:(vm_compute; reflexivity)
                     ltac:(vm_compute; reflexivity)
                     ltac:(vm_compute; reflexivity)))
    as (e & w' & Hrun & Hc).
  - reflexivity.
  - exists w'. split; [| exact Hc].
    rewrite Hrun. f_equal.
    assert (H : fst (deleteMessage (fixedZone 0) remote "C1" "31/12/2023" "14:30" world0)
                = Throw (Error "Delete message failed: cant_delete_message"))
      by (vm_compute; reflexivity).
    rewrite Hrun in H. exact H.
Defined.
